(** * mongoboiler: the CRUD wrapper of [client.go] over the MongoDB Go driver

    [client.go] is a thin layer over [go.mongodb.org/mongo-driver]: a
    database handle [DB], a collection handle [Collection], and one method
    per CRUD call.  The driver itself is an external package.  It is taken
    here as an interface ([Driver]): what a round trip to the deployment
    answers is left open, so every theorem about the wrapper holds for
    every answer the driver can give.  The parts of the driver that the
    wrapper drives step by step (a cursor, a single result) are small state
    machines, written out below.

    Go specifics that are modelled:
    - a function returning [(T, error)] returns a pair; [error] is [nil]
      ([None]) or an error value, a pointer result is [nil] ([None]) or an
      object;
    - dereferencing a nil pointer panics ([Panicked]);
    - [*DB] embedded in [Collection] is a pointer into a heap of [DB]
      objects, so a collection handle reads its context and client through
      its parent;
    - the caller's container behind [res] is passed in and handed back
      with the result, so that writes made before an early [return] stay
      visible. *)

From Stdlib Require Import ZArith String List Lia.
From stdpp Require Import base option list strings.
From Equations Require Import Equations.
From Equations.Prop Require Import Logic.
Import ListNotations.
Local Open Scope Z_scope.
Local Open Scope string_scope.
Local Open Scope list_scope.

(** ** Go values *)

(** Error values.  [ErrNoDocuments] is [mongo.ErrNoDocuments]; the other two
    stand for what the deployment or the BSON decoder report. *)
Inductive errval : Type :=
| ErrNoDocuments
| CommandError (msg : string)
| DecodeError (msg : string).

(** Go's [error] interface: [nil] or an error value. *)
Definition error : Type := option errval.

(** Values of Go's [any] ([interface{}]) that this package produces, passes
    on or receives. *)
#[local] Unset Elimination Schemes.
Inductive any : Type :=
| nil_any
| GoString (s : string)
| GoInt64 (z : Z)
| ObjectID (n : N)
| GoSlice (l : list any)
| BsonD (d : list (string * any))
| PtrTo (a : any).
#[local] Set Elimination Schemes.

(** [bson.D]: an ordered sequence of key-value pairs. *)
Definition bsonD : Type := list (string * any).

(** Result of a function call: it returns, or the goroutine panics. *)
Inductive Outcome (A : Type) : Type :=
| Returned (a : A)
| Panicked.
Arguments Returned {A} a.
Arguments Panicked {A}.

(** ** The driver's result structs *)

Record UpdateResult : Type := {
  MatchedCount : Z;
  ModifiedCount : Z;
  UpsertedCount : Z;
  UpsertedID : any
}.

Record InsertOneResult : Type := { InsertedID : any }.
Record InsertManyResult : Type := { InsertedIDs : list any }.
Record DeleteResult : Type := { DeletedCount : Z }.

Section DriverReplies.
Variable Raw : Type.

(** What [Collection.FindOne] hands back: an error, or the first matching
    document if there is one. *)
Record SingleResult : Type := {
  sr_err : error;
  sr_rdr : option Raw
}.

(** What a successful [Collection.Find] will deliver: the documents the
    cursor yields before it stops, and the error (if any) that stopped
    it. *)
Record FindReply : Type := {
  fr_docs : list Raw;
  fr_terminal : error
}.

(** A driver cursor.  [batch] are the documents still to come, [final] the
    error that the fetch after the last of them reports, [current] the
    document [Decode] reads, [cur_err] what [Err] returns, [closes] how
    many times [Close] was called. *)
Record Cursor : Type := {
  batch : list Raw;
  final : error;
  current : option Raw;
  cur_err : error;
  closes : nat
}.
End DriverReplies.

Arguments sr_err {Raw} _.
Arguments sr_rdr {Raw} _.
Arguments fr_docs {Raw} _.
Arguments fr_terminal {Raw} _.
Arguments batch {Raw} _.
Arguments final {Raw} _.
Arguments current {Raw} _.
Arguments cur_err {Raw} _.
Arguments closes {Raw} _.

(** ** The driver interface

    The handle types, the two pure constructors, the BSON decoder and, for
    each call that goes to the deployment, the answer as a function of the
    deployment's state.  [matching] and [stored_under] are observations of
    that state used to state properties: the documents of a collection that
    a filter selects, in the store's order, and the document kept under an
    identifier. *)
Class Driver : Type := {
  Client : Type;
  Database : Type;
  MCollection : Type;
  Context : Type;
  Server : Type;
  Raw : Type;
  client_Database : Client -> string -> Database;
  database_Collection : Database -> string -> MCollection;
  bson_Unmarshal : Raw -> any -> any * error;
  srv_Drop : Context -> MCollection -> Server -> error * Server;
  srv_FindOne : Context -> MCollection -> bsonD -> Server -> SingleResult Raw * Server;
  srv_Find : Context -> MCollection -> bsonD -> Server ->
             (option (FindReply Raw) * error) * Server;
  srv_UpdateOne : Context -> MCollection -> bsonD -> bsonD -> Server ->
                  (option UpdateResult * error) * Server;
  srv_UpdateMany : Context -> MCollection -> bsonD -> bsonD -> Server ->
                   (option UpdateResult * error) * Server;
  srv_InsertOne : Context -> MCollection -> any -> Server ->
                  (option InsertOneResult * error) * Server;
  srv_InsertMany : Context -> MCollection -> list any -> Server ->
                   (option InsertManyResult * error) * Server;
  srv_DeleteOne : Context -> MCollection -> bsonD -> Server ->
                  (option DeleteResult * error) * Server;
  srv_DeleteMany : Context -> MCollection -> bsonD -> Server ->
                   (option DeleteResult * error) * Server;
  matching : Server -> MCollection -> bsonD -> list Raw;
  stored_under : Server -> MCollection -> any -> option any
}.

Section GoState.
Context {D : Driver}.

(** ** The wrapper's structs *)

(** [type DB struct { db *mongo.Database; client *mongo.Client; ctx context.Context }] *)
Record DB : Type := {
  db : Database;
  client : Client;
  ctx : Context
}.

(** [type Collection struct { *DB; collection *mongo.Collection }].  The
    embedded [*DB] is an address in the heap of [DB] objects. *)
Record Collection : Type := {
  DB_ : nat;
  collection : MCollection
}.

(** ** Program state *)

Record State : Type := {
  heap : list DB;
  server : Server;
  cursors : list (Cursor Raw)
}.

Definition set_heap (h : list DB) (st : State) : State :=
  {| heap := h; server := server st; cursors := cursors st |}.
Definition set_server (s : Server) (st : State) : State :=
  {| heap := heap st; server := s; cursors := cursors st |}.
Definition set_cursors (cs : list (Cursor Raw)) (st : State) : State :=
  {| heap := heap st; server := server st; cursors := cs |}.

(** ** The monad of Go code: state passing with panics *)

Definition Go (A : Type) : Type := State -> Outcome A * State.

Definition go_ret {A} (a : A) : Go A := fun st => (Returned a, st).

Definition go_bind {A B} (m : Go A) (k : A -> Go B) : Go B :=
  fun st =>
    match m st with
    | (Returned a, st') => k a st'
    | (Panicked, st') => (Panicked, st')
    end.

Definition panic {A} : Go A := fun st => (Panicked, st).

(** One round trip: the deployment answers and moves on. *)
Definition call {A} (f : Server -> A * Server) : Go A :=
  fun st => let '(a, s') := f (server st) in (Returned a, set_server s' st).

(** Dereferencing a pointer to [DB]; nil and dangling addresses panic. *)
Definition deref (p : nat) : Go DB :=
  fun st =>
    match heap st !! p with
    | Some d => (Returned d, st)
    | None => (Panicked, st)
    end.

(** [&DB{...}]: a fresh address. *)
Definition alloc (d : DB) : Go nat :=
  fun st => (Returned (length (heap st)), set_heap (heap st ++ [d]) st).
End GoState.

Notation "'let*' x ':=' m 'in' k" := (go_bind m (fun x => k))
  (at level 10, x name, m at level 100, k at level 200).
Notation "'let*' ' pat ':=' m 'in' k" :=
  (go_bind m (fun x => match x with pat => k end))
  (at level 10, pat pattern, m at level 100, k at level 200).

(** ** The driver's objects *)

Section DriverObjects.
Context {D : Driver}.

(** The cursor [Collection.Find] registers for a reply. *)
Definition fresh_cursor (fr : FindReply Raw) : Cursor Raw :=
  {| batch := fr_docs fr; final := fr_terminal fr; current := None;
     cur_err := None; closes := 0 |}.

(** What [Cursor.Close] does to a cursor. *)
Definition closed_once (cu : Cursor Raw) : Cursor Raw :=
  {| batch := batch cu; final := final cu; current := current cu;
     cur_err := cur_err cu; closes := S (closes cu) |}.

(** [Collection.Find]: one round trip; a reply that carries a cursor
    registers it and returns its address. *)
Definition Collection_Find (coll : MCollection) (ctx : Context) (filter : bsonD)
  : Go (option nat * error) :=
  let* '(reply, err) := call (srv_Find ctx coll filter) in
  match reply with
  | None => go_ret (None, err)
  | Some r =>
      fun st =>
        (Returned (Some (length (cursors st)), err),
         set_cursors (cursors st ++ [fresh_cursor r]) st)
  end.

(** A method of [*mongo.Cursor] reads and updates the cursor behind its
    receiver; a nil receiver is dereferenced inside the driver. *)
Definition on_cursor {A} (cursor : option nat) (f : Cursor Raw -> A * Cursor Raw) : Go A :=
  fun st =>
    match cursor with
    | None => (Panicked, st)
    | Some i =>
        match cursors st !! i with
        | None => (Panicked, st)
        | Some cu =>
            let '(a, cu') := f cu in
            (Returned a, set_cursors (<[i := cu']> (cursors st)) st)
        end
    end.

(** [Cursor.Next]: steps to the next document, or reports the end and
    records the error that ended the iteration. *)
Definition Cursor_Next (cursor : option nat) (ctx : Context) : Go bool :=
  on_cursor cursor (fun cu =>
    match batch cu with
    | r :: rest =>
        (true, {| batch := rest; final := final cu; current := Some r;
                  cur_err := cur_err cu; closes := closes cu |})
    | [] =>
        (false, {| batch := []; final := final cu; current := None;
                   cur_err := final cu; closes := closes cu |})
    end).

(** [Cursor.Decode(val)]: unmarshals the current document into [val]. *)
Definition Cursor_Decode (cursor : option nat) (val : any) : Go (any * error) :=
  on_cursor cursor (fun cu =>
    match current cu with
    | Some r => (bson_Unmarshal r val, cu)
    | None => ((val, Some (DecodeError "no current document")), cu)
    end).

(** [Cursor.Err]. *)
Definition Cursor_Err (cursor : option nat) : Go error :=
  on_cursor cursor (fun cu => (cur_err cu, cu)).

(** [Cursor.Close]. *)
Definition Cursor_Close (cursor : option nat) (ctx : Context) : Go error :=
  on_cursor cursor (fun cu => (None, closed_once cu)).

(** [SingleResult.Decode(v)]: the stored error if there is one,
    [ErrNoDocuments] if nothing was found, else the document unmarshalled
    into [v]. *)
Definition SingleResult_Decode (sr : SingleResult Raw) (v : any) : any * error :=
  match sr_err sr with
  | Some e => (v, Some e)
  | None =>
      match sr_rdr sr with
      | None => (v, Some ErrNoDocuments)
      | Some r => bson_Unmarshal r v
      end
  end.

(** Documents a cursor has still to deliver. *)
Definition remaining (cursor : option nat) (st : State) : nat :=
  match cursor with
  | None => 0
  | Some i => match cursors st !! i with
              | Some cu => length (batch cu)
              | None => 0
              end
  end.
End DriverObjects.

(** ** client.go *)

Section Wrapper.
Context {D : Driver}.

(** [func New(client *mongo.Client, name string, ctx context.Context) *DB].
    [client] is a pointer: nil ([None]) or a client.  [client.Database(name)]
    is evaluated first and dereferences it, so a nil client panics before
    anything is allocated. *)
Definition New (client : option Client) (name : string) (ctx : Context) : Go nat :=
  match client with
  | None => panic
  | Some cl => alloc {| db := client_Database cl name; client := cl; ctx := ctx |}
  end.

(** [func (wrapper *DB) NewCollection(collectionName string) *Collection].
    The new [Collection] is returned by value: every method has a value
    receiver and copies it anyway. *)
Definition NewCollection (wrapper : nat) (collectionName : string) : Go Collection :=
  let* d := deref wrapper in
  go_ret {| DB_ := wrapper; collection := database_Collection (db d) collectionName |}.

(** The promoted fields [c.ctx] and [c.client], read through the embedded
    pointer [c.DB]. *)
Definition Collection_ctx (c : Collection) : Go Context :=
  let* d := deref (DB_ c) in go_ret (ctx d).
Definition Collection_client (c : Collection) : Go Client :=
  let* d := deref (DB_ c) in go_ret (client d).

(** [func (c Collection) Drop() error] *)
Definition Drop (c : Collection) : Go error :=
  let* ctx := Collection_ctx c in
  call (srv_Drop ctx (collection c)).

(** [func (c Collection) FindOne(filter bson.D, res any) error].  [res] is
    the contents of the caller's container; the result carries its contents
    after the call. *)
Definition FindOne (c : Collection) (filter : bsonD) (res : any) : Go (any * error) :=
  let* ctx := Collection_ctx c in
  let* sr := call (srv_FindOne ctx (collection c) filter) in
  let '(res, err) := SingleResult_Decode sr res in
  match err with
  | Some e => go_ret (res, Some e)
  | None => go_ret (res, None)
  end.

(** [reflect.New(arrType).Interface()] for [arrType = reflect.TypeOf(res).Elem()]
    with [res *[]any]: a pointer to a fresh nil slice. *)
Definition reflect_New_arrType : any := PtrTo (GoSlice []).

(** The [for cursor.Next(ctx) { ... }] loop of [FindMany].  [res] is the
    caller's slice so far.  The result is the slice and, when the body
    left the function through [return err], that error. *)
Equations? FindMany_loop (cursor : option nat) (ctx : Context) (res : list any)
  (st : State) : Outcome (list any * option errval) * State
  by wf (remaining cursor st) lt :=
FindMany_loop cursor ctx res st with inspect (Cursor_Next cursor ctx st) := {
  | exist _ (Panicked, st1) _ := (Panicked, st1);
  | exist _ (Returned false, st1) _ := (Returned (res, None), st1);
  | exist _ (Returned true, st1) Hnext
      with inspect (Cursor_Decode cursor reflect_New_arrType st1) := {
      | exist _ (Panicked, st2) _ := (Panicked, st2);
      | exist _ (Returned (doc, Some err), st2) _ := (Returned (res, Some err), st2);
      | exist _ (Returned (doc, None), st2) Hdec :=
          FindMany_loop cursor ctx (res ++ [doc]) st2 } }.
Proof.
  unfold Cursor_Next, Cursor_Decode, on_cursor, remaining in *.
  destruct cursor as [i|]; [|discriminate].
  destruct (cursors st !! i) as [cu|] eqn:Hcu; [|discriminate].
  assert (Hi : (i < length (cursors st))%nat) by (eapply lookup_lt_Some; eassumption).
  destruct (batch cu) as [|r rest]; [discriminate|].
  injection Hnext as <-. cbn in Hdec.
  rewrite list_lookup_insert_eq in Hdec by exact Hi. cbn in Hdec.
  destruct (bson_Unmarshal r reflect_New_arrType). injection Hdec as _ _ <-. cbn.
  rewrite list_insert_insert_eq, list_lookup_insert_eq by exact Hi. cbn. lia.
Qed.

(** [func (c Collection) FindMany(filter bson.D, res *[]any) error].  [res]
    is the contents of the caller's slice; the result carries its contents
    after the call. *)
Definition FindMany (c : Collection) (filter : bsonD) (res : list any)
  : Go (list any * error) :=
  let* ctx0 := Collection_ctx c in
  let* '(cursor, err) := Collection_Find (collection c) ctx0 filter in
  let* ctx := Collection_ctx c in
  let* '(res, ret) := FindMany_loop cursor ctx res in
  match ret with
  | Some e => go_ret (res, Some e)
  | None =>
      let* cerr := Cursor_Err cursor in
      match cerr with
      | Some _ => go_ret (res, err)
      | None =>
          let* _ := Cursor_Close cursor ctx in
          go_ret (res, None)
      end
  end.

(** [func (c Collection) UpdateOne(filter, update bson.D) (int64, int64, error)] *)
Definition UpdateOne (c : Collection) (filter update : bsonD) : Go (Z * Z * error) :=
  let* ctx := Collection_ctx c in
  let* '(updateRes, err) := call (srv_UpdateOne ctx (collection c) filter update) in
  match err with
  | Some e => go_ret (0, 0, Some e)
  | None =>
      match updateRes with
      | Some r => go_ret (MatchedCount r, ModifiedCount r, None)
      | None => panic
      end
  end.

(** [func (c Collection) UpdateMany(filter, update bson.D) (int64, int64, error)] *)
Definition UpdateMany (c : Collection) (filter update : bsonD) : Go (Z * Z * error) :=
  let* ctx := Collection_ctx c in
  let* '(updateRes, err) := call (srv_UpdateMany ctx (collection c) filter update) in
  match err with
  | Some e => go_ret (0, 0, Some e)
  | None =>
      match updateRes with
      | Some r => go_ret (MatchedCount r, ModifiedCount r, None)
      | None => panic
      end
  end.

(** [func (c Collection) InsertOne(new any) (any, error)].  The failure
    branch returns the empty string, [EmptyString]. *)
Definition InsertOne (c : Collection) (new : any) : Go (any * error) :=
  let* ctx := Collection_ctx c in
  let* '(insertRes, err) := call (srv_InsertOne ctx (collection c) new) in
  match err with
  | Some e => go_ret (GoString EmptyString, Some e)
  | None =>
      match insertRes with
      | Some r => go_ret (InsertedID r, None)
      | None => panic
      end
  end.

(** [func (c Collection) InsertMany(new []any) (any, error)] *)
Definition InsertMany (c : Collection) (new : list any) : Go (any * error) :=
  let* ctx := Collection_ctx c in
  let* '(insertRes, err) := call (srv_InsertMany ctx (collection c) new) in
  match err with
  | Some e => go_ret (GoString EmptyString, Some e)
  | None =>
      match insertRes with
      | Some r => go_ret (GoSlice (InsertedIDs r), None)
      | None => panic
      end
  end.

(** [func (c Collection) DeleteOne(filter bson.D) error] *)
Definition DeleteOne (c : Collection) (filter : bsonD) : Go error :=
  let* ctx := Collection_ctx c in
  let* '(_, err) := call (srv_DeleteOne ctx (collection c) filter) in
  match err with
  | Some e => go_ret (Some e)
  | None => go_ret None
  end.

(** [func (c Collection) DeleteMany(filter bson.D) error] *)
Definition DeleteMany (c : Collection) (filter : bsonD) : Go error :=
  let* ctx := Collection_ctx c in
  let* '(_, err) := call (srv_DeleteMany ctx (collection c) filter) in
  match err with
  | Some e => go_ret (Some e)
  | None => go_ret None
  end.
End Wrapper.

(** ** Notions used to state what the methods do *)

Section Notions.
Context {D : Driver}.

(** Decoding the documents of a batch in order, up to the first one that
    fails: the values appended, and where and why the scan stopped. *)
Fixpoint scan (docs : list Raw) : list any * option (Raw * list Raw * errval) :=
  match docs with
  | [] => ([], None)
  | r :: rest =>
      match bson_Unmarshal r reflect_New_arrType with
      | (_, Some e) => ([], Some (r, rest, e))
      | (doc, None) => let '(ds, stop) := scan rest in (doc :: ds, stop)
      end
  end.

(** The value a document decodes to. *)
Definition decoded (r : Raw) : any := fst (bson_Unmarshal r reflect_New_arrType).

(** The cursor as the loop leaves it. *)
Definition after_loop (cu : Cursor Raw) : Cursor Raw :=
  match snd (scan (batch cu)) with
  | None =>
      {| batch := []; final := final cu; current := None;
         cur_err := final cu; closes := closes cu |}
  | Some (r, rest, _) =>
      {| batch := rest; final := final cu; current := Some r;
         cur_err := cur_err cu; closes := closes cu |}
  end.

(** A document decodes when [Unmarshal] reports no error. *)
Definition decodes (r : Raw) : Prop := snd (bson_Unmarshal r reflect_New_arrType) = None.

(** The update counts as the specification words them: after a successful
    [UpdateOne] both counts are 0 or 1, the modified count is at most the matched count, and
    the matched count is the number of documents the filter selects; after a
    successful [UpdateMany] the matched count is that number. *)
Definition update_counts_as_stated (c : Collection) (filter update : bsonD) (st : State)
  : Prop :=
  let M := Z.of_nat (length (matching (server st) (collection c) filter)) in
  (forall m k st', UpdateOne c filter update st = (Returned (m, k, None), st') ->
     (m = 0 \/ m = 1) /\ (k = 0 \/ k = 1) /\ k <= m /\ m = M) /\
  (forall m k st', UpdateMany c filter update st = (Returned (m, k, None), st') ->
     m = M).
End Notions.

(** ** An in-memory deployment

    A small executable driver: collections are lists of documents in
    insertion order, a filter selects the documents that carry each of its
    key-value pairs, an update is a [$set] document.  A cancelled context
    fails every round trip, and [drop_after] cuts a cursor short after that
    many documents, as a lost connection does.  It instantiates [Driver], so
    the wrapper can be run on concrete inputs. *)

Module Mem.

Inductive context : Type := Background | Canceled.

(** A stored document: its identifier, the document as inserted, and
    whether its bytes decode. *)
Record raw : Type := {
  id : any;
  body : bsonD;
  wellformed : bool
}.

Definition ns : Type := string * string.

Record deployment : Type := {
  colls : list (ns * list raw);
  next_id : N;
  drop_after : option nat
}.

Fixpoint any_eqb (a b : any) {struct a} : bool :=
  match a, b with
  | nil_any, nil_any => true
  | GoString s, GoString t => String.eqb s t
  | GoInt64 x, GoInt64 y => Z.eqb x y
  | ObjectID x, ObjectID y => N.eqb x y
  | GoSlice l, GoSlice m =>
      (fix all2 (l m : list any) {struct l} : bool :=
         match l, m with
         | [], [] => true
         | x :: l', y :: m' => any_eqb x y && all2 l' m'
         | _, _ => false
         end) l m
  | BsonD l, BsonD m =>
      (fix all2 (l m : list (string * any)) {struct l} : bool :=
         match l, m with
         | [], [] => true
         | (k, x) :: l', (k', y) :: m' => String.eqb k k' && any_eqb x y && all2 l' m'
         | _, _ => false
         end) l m
  | PtrTo x, PtrTo y => any_eqb x y
  | _, _ => false
  end.

Definition ns_eqb (a b : ns) : bool :=
  String.eqb (fst a) (fst b) && String.eqb (snd a) (snd b).

Fixpoint docs_of (cs : list (ns * list raw)) (n : ns) : list raw :=
  match cs with
  | [] => []
  | (n', ds) :: cs' => if ns_eqb n n' then ds else docs_of cs' n
  end.

Fixpoint put_docs (cs : list (ns * list raw)) (n : ns) (ds : list raw)
  : list (ns * list raw) :=
  match cs with
  | [] => [(n, ds)]
  | (n', ds') :: cs' =>
      if ns_eqb n n' then (n, ds) :: cs' else (n', ds') :: put_docs cs' n ds
  end.

Fixpoint field (k : string) (d : bsonD) : option any :=
  match d with
  | [] => None
  | (k', v) :: d' => if String.eqb k k' then Some v else field k d'
  end.

Definition doc_field (k : string) (r : raw) : option any :=
  if String.eqb k "_id" then Some (id r) else field k (body r).

Definition matches (filter : bsonD) (r : raw) : bool :=
  forallb (fun kv => match doc_field (fst kv) r with
                     | Some v => any_eqb (snd kv) v
                     | None => false
                     end) filter.

Definition select (s : deployment) (n : ns) (filter : bsonD) : list raw :=
  List.filter (matches filter) (docs_of (colls s) n).

Definition with_docs (s : deployment) (n : ns) (ds : list raw) : deployment :=
  {| colls := put_docs (colls s) n ds; next_id := next_id s; drop_after := drop_after s |}.

Definition canceled : errval := CommandError "context canceled".

(** The document a client sees: the body, with the identifier in front when
    the body does not carry it. *)
Definition view (r : raw) : bsonD :=
  match field "_id" (body r) with
  | Some _ => body r
  | None => ("_id", id r) :: body r
  end.

Definition unmarshal (r : raw) (target : any) : any * error :=
  if wellformed r then (BsonD (view r), None)
  else (target, Some (DecodeError "invalid document length")).

Definition drop (c : context) (n : ns) (s : deployment) : error * deployment :=
  match c with
  | Canceled => (Some canceled, s)
  | Background => (None, with_docs s n [])
  end.

Definition find_one (c : context) (n : ns) (filter : bsonD) (s : deployment)
  : SingleResult raw * deployment :=
  match c with
  | Canceled => ({| sr_err := Some canceled; sr_rdr := None |}, s)
  | Background => ({| sr_err := None; sr_rdr := head (select s n filter) |}, s)
  end.

Definition find (c : context) (n : ns) (filter : bsonD) (s : deployment)
  : option (FindReply raw) * error * deployment :=
  match c with
  | Canceled => (None, Some canceled, s)
  | Background =>
      let ms := select s n filter in
      match drop_after s with
      | Some k =>
          if (k <? length ms)%nat
          then (Some {| fr_docs := take k ms;
                        fr_terminal := Some (CommandError "connection reset") |}, None, s)
          else (Some {| fr_docs := ms; fr_terminal := None |}, None, s)
      | None => (Some {| fr_docs := ms; fr_terminal := None |}, None, s)
      end
  end.

(** [$set]: the pairs to assign, when the update has that shape. *)
Definition set_pairs (update : bsonD) : option bsonD :=
  match update with
  | [(op, BsonD kvs)] => if String.eqb op "$set" then Some kvs else None
  | _ => None
  end.

Fixpoint assign (k : string) (v : any) (d : bsonD) : bsonD :=
  match d with
  | [] => [(k, v)]
  | (k', v') :: d' => if String.eqb k k' then (k, v) :: d' else (k', v') :: assign k v d'
  end.

Definition apply_set (kvs : bsonD) (r : raw) : raw :=
  {| id := id r;
     body := fold_left (fun d kv => assign (fst kv) (snd kv) d) kvs (body r);
     wellformed := wellformed r |}.

Definition changed (r r' : raw) : bool := negb (any_eqb (BsonD (body r)) (BsonD (body r'))).

(** Applies [kvs] to the first [limit] matching documents (all of them when
    [limit] is [None]); returns the documents and the two counts. *)
Fixpoint update_docs (filter kvs : bsonD) (limit : option nat) (ds : list raw)
  : list raw * Z * Z :=
  match ds with
  | [] => ([], 0, 0)
  | r :: ds' =>
      let go := match limit with Some O => false | _ => matches filter r end in
      if go then
        let r' := apply_set kvs r in
        let '(out, m, k) := update_docs filter kvs (option_map Nat.pred limit) ds' in
        (r' :: out, m + 1, if changed r r' then k + 1 else k)
      else
        let '(out, m, k) := update_docs filter kvs limit ds' in (r :: out, m, k)
  end.

Definition update (limit : option nat) (c : context) (n : ns) (filter upd : bsonD)
  (s : deployment) : option UpdateResult * error * deployment :=
  match c with
  | Canceled => (None, Some canceled, s)
  | Background =>
      match set_pairs upd with
      | None => (None, Some (CommandError "update document must contain key beginning with '$'"), s)
      | Some kvs =>
          let '(out, m, k) := update_docs filter kvs limit (docs_of (colls s) n) in
          (Some {| MatchedCount := m; ModifiedCount := k;
                   UpsertedCount := 0; UpsertedID := nil_any |}, None,
           with_docs s n out)
      end
  end.

(** Stores the documents in order; each gets its own [_id] or a fresh one.
    Fails on a value that is not a document. *)
Fixpoint store_all (news : list any) (next : N) : option (list raw * list any * N) :=
  match news with
  | [] => Some ([], [], next)
  | BsonD d :: news' =>
      let '(i, next') := match field "_id" d with
                         | Some v => (v, next)
                         | None => (ObjectID next, N.succ next)
                         end in
      match store_all news' next' with
      | Some (rs, ids, next'') =>
          Some ({| id := i; body := d; wellformed := true |} :: rs, i :: ids, next'')
      | None => None
      end
  | _ :: _ => None
  end.

Definition insert_many (c : context) (n : ns) (news : list any) (s : deployment)
  : option InsertManyResult * error * deployment :=
  match c with
  | Canceled => (None, Some canceled, s)
  | Background =>
      match news with
      | [] => (None, Some (CommandError "must provide at least one element in input slice"), s)
      | _ =>
          match store_all news (next_id s) with
          | None => (None, Some (CommandError "cannot marshal value into a document"), s)
          | Some (rs, ids, next) =>
              (Some {| InsertedIDs := ids |}, None,
               {| colls := put_docs (colls s) n (docs_of (colls s) n ++ rs);
                  next_id := next; drop_after := drop_after s |})
          end
      end
  end.

Definition insert_one (c : context) (n : ns) (new : any) (s : deployment)
  : option InsertOneResult * error * deployment :=
  match insert_many c n [new] s with
  | (Some {| InsertedIDs := i :: _ |}, None, s') => (Some {| InsertedID := i |}, None, s')
  | (_, Some e, s') => (None, Some e, s')
  | (_, None, s') => (None, Some (CommandError "no identifier returned"), s')
  end.

(** Removes the first [limit] matching documents (all when [None]). *)
Fixpoint delete_docs (filter : bsonD) (limit : option nat) (ds : list raw) : list raw * Z :=
  match ds with
  | [] => ([], 0)
  | r :: ds' =>
      let go := match limit with Some O => false | _ => matches filter r end in
      if go then
        let '(out, k) := delete_docs filter (option_map Nat.pred limit) ds' in (out, k + 1)
      else
        let '(out, k) := delete_docs filter limit ds' in (r :: out, k)
  end.

Definition delete (limit : option nat) (c : context) (n : ns) (filter : bsonD) (s : deployment)
  : option DeleteResult * error * deployment :=
  match c with
  | Canceled => (None, Some canceled, s)
  | Background =>
      let '(out, k) := delete_docs filter limit (docs_of (colls s) n) in
      (Some {| DeletedCount := k |}, None, with_docs s n out)
  end.

Definition kept_under (s : deployment) (n : ns) (i : any) : option any :=
  match List.filter (fun r => any_eqb i (id r)) (docs_of (colls s) n) with
  | r :: _ => Some (BsonD (body r))
  | [] => None
  end.

#[export] Instance driver : Driver := {|
  Client := string;
  Database := string;
  MCollection := ns;
  Context := context;
  Server := deployment;
  Raw := raw;
  client_Database := fun _ name => name;
  database_Collection := fun dbname name => (dbname, name);
  bson_Unmarshal := unmarshal;
  srv_Drop := drop;
  srv_FindOne := find_one;
  srv_Find := find;
  srv_UpdateOne := update (Some 1%nat);
  srv_UpdateMany := update None;
  srv_InsertOne := insert_one;
  srv_InsertMany := insert_many;
  srv_DeleteOne := delete (Some 1%nat);
  srv_DeleteMany := delete None;
  matching := select;
  stored_under := kept_under
|}.

(** The scenario of the specification: three documents, two named "a". *)
Definition users : ns := ("app", "users").

Definition named (i : N) (name : string) : raw :=
  {| id := ObjectID i; body := [("name", GoString name)]; wellformed := true |}.

Definition srv0 : deployment :=
  {| colls := [(users, [named 1 "a"; named 2 "a"; named 3 "b"])];
     next_id := 4; drop_after := None |}.

Definition parent (c : context) : DB :=
  {| db := "app"; client := "mongodb://localhost:27017"; ctx := c |}.

Definition st_of (c : context) (s : deployment) : State :=
  {| heap := [parent c]; server := s; cursors := [] |}.

Definition st0 : State := st_of Background srv0.

Definition coll_users : Collection := {| DB_ := 0; collection := users |}.

Definition name_is (name : string) : bsonD := [("name", GoString name)].

(** The same collection, with the second document damaged. *)
Definition srv_bad : deployment :=
  {| colls := [(users, [named 1 "a";
                        {| id := ObjectID 2; body := name_is "a"; wellformed := false |};
                        named 3 "b"])];
     next_id := 4; drop_after := None |}.

(** The same collection, with the connection lost after one document. *)
Definition srv_cut : deployment :=
  {| colls := colls srv0; next_id := 4; drop_after := Some 1%nat |}.

Definition set_age (n : Z) : bsonD := [("$set", BsonD [("age", GoInt64 n)])].

(** An empty deployment and no handles. *)
Definition blank : State :=
  {| heap := []; server := {| colls := []; next_id := 1; drop_after := None |};
     cursors := [] |}.

(** The scenario of the specification, run through the wrapper: insert
    "a", "a", "b"; find "a"; delete every "a"; find "a"; find "b". *)
Definition scenario : Go (list any * list any * list any) :=
  let* database := New (Some "mongodb://localhost:27017") "app" Background in
  let* c := NewCollection database "users" in
  let* _ := InsertMany c [BsonD (name_is "a"); BsonD (name_is "a"); BsonD (name_is "b")] in
  let* '(first, _) := FindMany c (name_is "a") [] in
  let* _ := DeleteMany c (name_is "a") in
  let* '(second, _) := FindMany c (name_is "a") [] in
  let* '(third, _) := FindMany c (name_is "b") [] in
  go_ret (first, second, third).
End Mem.

(** ** The cursor and the loop *)

Section FindManyLoop.
Context {D : Driver}.

(** What a successful cursor method did. *)
Lemma on_cursor_Returned {A} cursor (f : Cursor Raw -> A * Cursor Raw) st a st' :
  on_cursor cursor f st = (Returned a, st') ->
  exists i cu cu', cursor = Some i /\ cursors st !! i = Some cu /\
    f cu = (a, cu') /\ st' = set_cursors (<[i := cu']> (cursors st)) st.
Proof.
  unfold on_cursor. destruct cursor as [i|]; [|discriminate].
  destruct (cursors st !! i) as [cu|] eqn:Hcu; [|discriminate].
  destruct (f cu) as [a' cu'] eqn:Hf. intros [= <- <-].
  exists i, cu, cu'. auto.
Qed.

Lemma remaining_set_cursors i cu cu' st :
  cursors st !! i = Some cu ->
  remaining (Some i) (set_cursors (<[i := cu']> (cursors st)) st) = length (batch cu').
Proof.
  intros Hcu. unfold remaining. cbn.
  rewrite list_lookup_insert_eq; [reflexivity|].
  eapply lookup_lt_Some; eassumption.
Qed.

(** Each successful [Next] consumes one pending document; this is the
    variant of the loop of [FindMany]. *)
Lemma Cursor_Next_true_remaining cursor ctx st st1 :
  Cursor_Next cursor ctx st = (Returned true, st1) ->
  (remaining cursor st1 < remaining cursor st)%nat.
Proof.
  intros H. apply on_cursor_Returned in H.
  destruct H as (i & cu & cu' & -> & Hcu & Hf & ->).
  rewrite (remaining_set_cursors _ _ _ _ Hcu).
  unfold remaining. rewrite Hcu.
  destruct (batch cu) as [|r rest] eqn:Hb; [discriminate|].
  injection Hf as <-. cbn. lia.
Qed.

Lemma Cursor_Decode_remaining cursor val st1 r st2 :
  Cursor_Decode cursor val st1 = (Returned r, st2) ->
  remaining cursor st2 = remaining cursor st1.
Proof.
  intros H. apply on_cursor_Returned in H.
  destruct H as (i & cu & cu' & -> & Hcu & Hf & ->).
  rewrite (remaining_set_cursors _ _ _ _ Hcu).
  unfold remaining. rewrite Hcu.
  destruct (current cu); injection Hf as _ <-; reflexivity.
Qed.
Lemma FindMany_loop_step cursor ctx res st :
  FindMany_loop cursor ctx res st =
  match Cursor_Next cursor ctx st with
  | (Panicked, st1) => (Panicked, st1)
  | (Returned false, st1) => (Returned (res, None), st1)
  | (Returned true, st1) =>
      match Cursor_Decode cursor reflect_New_arrType st1 with
      | (Panicked, st2) => (Panicked, st2)
      | (Returned (doc, Some err), st2) => (Returned (res, Some err), st2)
      | (Returned (doc, None), st2) => FindMany_loop cursor ctx (res ++ [doc]) st2
      end
  end.
Proof.
  funelim (FindMany_loop cursor ctx res st); try clear Heqcall;
    match goal with e : Cursor_Next _ _ _ = _ |- _ => rewrite e end;
    try match goal with e : Cursor_Decode _ _ _ = _ |- _ => rewrite e end;
    reflexivity.
Qed.

(** A nil cursor: the first [Next] dereferences it. *)
Lemma FindMany_loop_nil ctx res st :
  FindMany_loop None ctx res st = (Panicked, st).
Proof. rewrite FindMany_loop_step. reflexivity. Qed.

Lemma on_cursor_run {A} i (f : Cursor Raw -> A * Cursor Raw) st cu :
  cursors st !! i = Some cu ->
  on_cursor (Some i) f st =
  (Returned (fst (f cu)), set_cursors (<[i := snd (f cu)]> (cursors st)) st).
Proof. intros H. unfold on_cursor. rewrite H. destruct (f cu); reflexivity. Qed.

Lemma set_cursors_lookup i cu cu' st :
  cursors st !! i = Some cu ->
  cursors (set_cursors (<[i := cu']> (cursors st)) st) !! i = Some cu'.
Proof.
  intros H. cbn. apply list_lookup_insert_eq. eapply lookup_lt_Some; eassumption.
Qed.

Lemma set_cursors_twice i cu cu' st :
  set_cursors (<[i := cu']> (cursors (set_cursors (<[i := cu]> (cursors st)) st)))
              (set_cursors (<[i := cu]> (cursors st)) st)
  = set_cursors (<[i := cu']> (cursors st)) st.
Proof. unfold set_cursors. cbn. rewrite list_insert_insert_eq. reflexivity. Qed.

(** The loop on a live cursor: it appends the decoded documents up to the
    first failure and leaves the cursor at [after_loop]. *)
Lemma FindMany_loop_scan i ctx docs : forall res st cu,
  cursors st !! i = Some cu ->
  batch cu = docs ->
  FindMany_loop (Some i) ctx res st =
  (Returned (res ++ fst (scan docs),
             match snd (scan docs) with Some (_, _, e) => Some e | None => None end),
   set_cursors (<[i := after_loop cu]> (cursors st)) st).
Proof.
  induction docs as [|r rest IH]; intros res st cu Hcu Hb.
  - rewrite FindMany_loop_step. unfold Cursor_Next.
    rewrite (on_cursor_run _ _ _ _ Hcu). unfold after_loop. rewrite Hb. cbn.
    rewrite app_nil_r. reflexivity.
  - rewrite FindMany_loop_step. unfold Cursor_Next at 1.
    rewrite (on_cursor_run _ _ _ _ Hcu). rewrite Hb. cbn [fst snd].
    set (cu1 := {| batch := rest; final := final cu; current := Some r;
                   cur_err := cur_err cu; closes := closes cu |}).
    unfold Cursor_Decode.
    rewrite (on_cursor_run _ _ _ _ (set_cursors_lookup _ _ cu1 _ Hcu)).
    cbn [current cu1 fst snd]. rewrite set_cursors_twice.
    unfold after_loop. rewrite Hb. cbn [scan].
    destruct (bson_Unmarshal r reflect_New_arrType) as [doc [e|]] eqn:Hu.
    + cbn. rewrite app_nil_r. reflexivity.
    + rewrite (IH (res ++ [doc]) _ cu1 (set_cursors_lookup _ _ cu1 _ Hcu) eq_refl).
      rewrite set_cursors_twice. unfold after_loop. cbn [batch cu1].
      destruct (scan rest) as [ds [[[r' rest'] e']|]]; cbn;
        rewrite <- app_assoc; reflexivity.
Qed.
End FindManyLoop.

(** ** Running the methods on a valid handle *)

Section Runs.
Context {D : Driver}.

Lemma Collection_ctx_run c d st :
  heap st !! DB_ c = Some d -> Collection_ctx c st = (Returned (ctx d), st).
Proof. intros H. unfold Collection_ctx, go_bind, deref. rewrite H. reflexivity. Qed.

Lemma Collection_client_run c d st :
  heap st !! DB_ c = Some d -> Collection_client c st = (Returned (client d), st).
Proof. intros H. unfold Collection_client, go_bind, deref. rewrite H. reflexivity. Qed.

(** A method called through a handle whose parent pointer is nil or
    dangling panics before it reaches the driver. *)
Lemma Collection_ctx_nil c st :
  heap st !! DB_ c = None -> Collection_ctx c st = (Panicked, st).
Proof. intros H. unfold Collection_ctx, go_bind, deref. rewrite H. reflexivity. Qed.

Lemma insert_last {A} (l : list A) (x y : A) :
  <[length l := y]> (l ++ [x]) = l ++ [y].
Proof.
  replace (length l) with (length l + 0)%nat at 1 by lia.
  rewrite insert_app_r. reflexivity.
Qed.

(** [FindMany], path by path, as a function of what [Find] answered. *)
Lemma FindMany_run c d filter res st :
  heap st !! DB_ c = Some d ->
  FindMany c filter res st =
  match srv_Find (ctx d) (collection c) filter (server st) with
  | (None, err, s') => (Panicked, set_server s' st)
  | (Some fr, err, s') =>
      let appended := fst (scan (fr_docs fr)) in
      let left := after_loop (fresh_cursor fr) in
      match snd (scan (fr_docs fr)) with
      | Some (_, _, e) =>
          (Returned (res ++ appended, Some e),
           set_cursors (cursors st ++ [left]) (set_server s' st))
      | None =>
          match fr_terminal fr with
          | Some _ =>
              (Returned (res ++ appended, err),
               set_cursors (cursors st ++ [left]) (set_server s' st))
          | None =>
              (Returned (res ++ appended, None),
               set_cursors (cursors st ++ [closed_once left]) (set_server s' st))
          end
      end
  end.
Proof.
  intros Hd. unfold FindMany.
  unfold go_bind at 1. rewrite (Collection_ctx_run _ _ _ Hd).
  unfold go_bind at 1. unfold Collection_Find, go_bind at 1, call.
  destruct (srv_Find (ctx d) (collection c) filter (server st))
    as [[[fr|] err] s'] eqn:Hfind.
  - set (st1 := set_server s' st).
    change (cursors st1) with (cursors st). fold (fresh_cursor fr).
    set (st2 := set_cursors (cursors st ++ [fresh_cursor fr]) st1).
    assert (Hd2 : heap st2 !! DB_ c = Some d) by exact Hd.
    assert (Hcu : cursors st2 !! length (cursors st) = Some (fresh_cursor fr)).
    { cbn. apply list_lookup_middle. reflexivity. }
    unfold go_bind at 1. rewrite (Collection_ctx_run _ _ _ Hd2).
    unfold go_bind at 1.
    rewrite (FindMany_loop_scan _ (ctx d) (fr_docs fr) res st2 _ Hcu eq_refl).
    assert (Hst3 : set_cursors (<[length (cursors st) := after_loop (fresh_cursor fr)]>
                                  (cursors st2)) st2
                   = set_cursors (cursors st ++ [after_loop (fresh_cursor fr)]) st1).
    { unfold set_cursors, st2. cbn. rewrite insert_last. reflexivity. }
    rewrite Hst3. clear Hst3.
    set (st3 := set_cursors (cursors st ++ [after_loop (fresh_cursor fr)]) st1).
    assert (Hcu3 : cursors st3 !! length (cursors st)
                   = Some (after_loop (fresh_cursor fr))).
    { cbn. apply list_lookup_middle. reflexivity. }
    unfold after_loop in Hcu3. cbn [batch fresh_cursor] in Hcu3.
    destruct (snd (scan (fr_docs fr))) as [[[r rest] e]|] eqn:Hstop.
    + reflexivity.
    + unfold go_bind at 1. unfold Cursor_Err.
      rewrite (on_cursor_run _ _ _ _ Hcu3). cbn [fst snd cur_err].
      assert (Hid : set_cursors (<[length (cursors st) :=
                      {| batch := []; final := final (fresh_cursor fr); current := None;
                         cur_err := final (fresh_cursor fr);
                         closes := closes (fresh_cursor fr) |}]> (cursors st3)) st3 = st3).
      { unfold set_cursors. rewrite (list_insert_id _ _ _ Hcu3). destruct st3; reflexivity. }
      rewrite Hid. cbn [final fresh_cursor].
      destruct (fr_terminal fr) as [e|] eqn:Hterm.
      * reflexivity.
      * unfold go_bind, Cursor_Close.
        rewrite (on_cursor_run _ _ _ _ Hcu3). cbn [fst snd].
        unfold go_ret. f_equal.
        unfold set_cursors, st3. cbn. rewrite insert_last.
        unfold closed_once, after_loop. cbn [batch fresh_cursor]. rewrite Hstop.
        reflexivity.
  - unfold go_ret at 1. cbn iota beta.
    assert (Hd1 : heap (set_server s' st) !! DB_ c = Some d) by exact Hd.
    unfold go_bind at 1. rewrite (Collection_ctx_run _ _ _ Hd1).
    unfold go_bind. rewrite FindMany_loop_nil. reflexivity.
Qed.
End Runs.

(** ** The one-call methods, path by path *)

Section Passthrough.
Context {D : Driver}.

(** Reads the context through the handle, then splits on the driver's
    answer [ans]. *)
Ltac through Hd ans :=
  unfold go_bind at 1; rewrite (Collection_ctx_run _ _ _ Hd);
  unfold go_bind, call, go_ret, panic;
  destruct ans as [[[?|] [?|]] ?]; reflexivity.

Lemma Drop_run c d st :
  heap st !! DB_ c = Some d ->
  Drop c st =
  let '(err, s') := srv_Drop (ctx d) (collection c) (server st) in
  (Returned err, set_server s' st).
Proof.
  intros Hd. unfold Drop.
  unfold go_bind at 1; rewrite (Collection_ctx_run _ _ _ Hd). reflexivity.
Qed.

Lemma FindOne_run c d filter res st :
  heap st !! DB_ c = Some d ->
  FindOne c filter res st =
  let '(sr, s') := srv_FindOne (ctx d) (collection c) filter (server st) in
  (Returned (SingleResult_Decode sr res), set_server s' st).
Proof.
  intros Hd. unfold FindOne.
  unfold go_bind at 1; rewrite (Collection_ctx_run _ _ _ Hd).
  unfold go_bind, call.
  destruct (srv_FindOne (ctx d) (collection c) filter (server st)) as [sr s'].
  destruct (SingleResult_Decode sr res) as [res' [e|]]; reflexivity.
Qed.

Lemma UpdateOne_run c d filter update st :
  heap st !! DB_ c = Some d ->
  UpdateOne c filter update st =
  match srv_UpdateOne (ctx d) (collection c) filter update (server st) with
  | (_, Some e, s') => (Returned (0, 0, Some e), set_server s' st)
  | (Some r, None, s') =>
      (Returned (MatchedCount r, ModifiedCount r, None), set_server s' st)
  | (None, None, s') => (Panicked, set_server s' st)
  end.
Proof.
  intros Hd. unfold UpdateOne.
  through Hd (srv_UpdateOne (ctx d) (collection c) filter update (server st)).
Qed.

Lemma UpdateMany_run c d filter update st :
  heap st !! DB_ c = Some d ->
  UpdateMany c filter update st =
  match srv_UpdateMany (ctx d) (collection c) filter update (server st) with
  | (_, Some e, s') => (Returned (0, 0, Some e), set_server s' st)
  | (Some r, None, s') =>
      (Returned (MatchedCount r, ModifiedCount r, None), set_server s' st)
  | (None, None, s') => (Panicked, set_server s' st)
  end.
Proof.
  intros Hd. unfold UpdateMany.
  through Hd (srv_UpdateMany (ctx d) (collection c) filter update (server st)).
Qed.

Lemma InsertOne_run c d new st :
  heap st !! DB_ c = Some d ->
  InsertOne c new st =
  match srv_InsertOne (ctx d) (collection c) new (server st) with
  | (_, Some e, s') => (Returned (GoString EmptyString, Some e), set_server s' st)
  | (Some r, None, s') => (Returned (InsertedID r, None), set_server s' st)
  | (None, None, s') => (Panicked, set_server s' st)
  end.
Proof.
  intros Hd. unfold InsertOne.
  through Hd (srv_InsertOne (ctx d) (collection c) new (server st)).
Qed.

Lemma InsertMany_run c d new st :
  heap st !! DB_ c = Some d ->
  InsertMany c new st =
  match srv_InsertMany (ctx d) (collection c) new (server st) with
  | (_, Some e, s') => (Returned (GoString EmptyString, Some e), set_server s' st)
  | (Some r, None, s') => (Returned (GoSlice (InsertedIDs r), None), set_server s' st)
  | (None, None, s') => (Panicked, set_server s' st)
  end.
Proof.
  intros Hd. unfold InsertMany.
  through Hd (srv_InsertMany (ctx d) (collection c) new (server st)).
Qed.

Lemma DeleteOne_run c d filter st :
  heap st !! DB_ c = Some d ->
  DeleteOne c filter st =
  let '(_, err, s') := srv_DeleteOne (ctx d) (collection c) filter (server st) in
  (Returned err, set_server s' st).
Proof.
  intros Hd. unfold DeleteOne.
  through Hd (srv_DeleteOne (ctx d) (collection c) filter (server st)).
Qed.

Lemma DeleteMany_run c d filter st :
  heap st !! DB_ c = Some d ->
  DeleteMany c filter st =
  let '(_, err, s') := srv_DeleteMany (ctx d) (collection c) filter (server st) in
  (Returned err, set_server s' st).
Proof.
  intros Hd. unfold DeleteMany.
  through Hd (srv_DeleteMany (ctx d) (collection c) filter (server st)).
Qed.
End Passthrough.

(** ** Properties of the wrapper *)

Section ErrorPaths.
Context {D : Driver}.

(** X9: every method that makes a single driver call hands the driver's
    error back as it is, after that one round trip: [Drop], [FindOne] (the
    error of [SingleResult.Decode]), the updates, the inserts and the
    deletes. *)
Lemma driver_error_forwarded c d st e :
  heap st !! DB_ c = Some d ->
  (forall s', srv_Drop (ctx d) (collection c) (server st) = (Some e, s') ->
     Drop c st = (Returned (Some e), set_server s' st)) /\
  (forall filter res sr s',
     srv_FindOne (ctx d) (collection c) filter (server st) = (sr, s') ->
     snd (SingleResult_Decode sr res) = Some e ->
     exists res', FindOne c filter res st = (Returned (res', Some e), set_server s' st)) /\
  (forall filter update r s',
     srv_UpdateOne (ctx d) (collection c) filter update (server st) = (r, Some e, s') ->
     exists m k, UpdateOne c filter update st = (Returned (m, k, Some e), set_server s' st)) /\
  (forall filter update r s',
     srv_UpdateMany (ctx d) (collection c) filter update (server st) = (r, Some e, s') ->
     exists m k, UpdateMany c filter update st = (Returned (m, k, Some e), set_server s' st)) /\
  (forall new r s',
     srv_InsertOne (ctx d) (collection c) new (server st) = (r, Some e, s') ->
     exists v, InsertOne c new st = (Returned (v, Some e), set_server s' st)) /\
  (forall new r s',
     srv_InsertMany (ctx d) (collection c) new (server st) = (r, Some e, s') ->
     exists v, InsertMany c new st = (Returned (v, Some e), set_server s' st)) /\
  (forall filter r s',
     srv_DeleteOne (ctx d) (collection c) filter (server st) = (r, Some e, s') ->
     DeleteOne c filter st = (Returned (Some e), set_server s' st)) /\
  (forall filter r s',
     srv_DeleteMany (ctx d) (collection c) filter (server st) = (r, Some e, s') ->
     DeleteMany c filter st = (Returned (Some e), set_server s' st)).
Proof.
  intros Hd. repeat apply conj.
  - intros s' H. rewrite (Drop_run _ _ _ Hd), H. reflexivity.
  - intros filter res sr s' H He. rewrite (FindOne_run _ _ _ _ _ Hd), H.
    destruct (SingleResult_Decode sr res) as [res' err]. cbn in He. subst err.
    exists res'. reflexivity.
  - intros filter update r s' H. rewrite (UpdateOne_run _ _ _ _ _ Hd), H.
    destruct r; eauto.
  - intros filter update r s' H. rewrite (UpdateMany_run _ _ _ _ _ Hd), H.
    destruct r; eauto.
  - intros new r s' H. rewrite (InsertOne_run _ _ _ _ Hd), H.
    destruct r; eauto.
  - intros new r s' H. rewrite (InsertMany_run _ _ _ _ Hd), H.
    destruct r; eauto.
  - intros filter r s' H. rewrite (DeleteOne_run _ _ _ _ Hd), H. reflexivity.
  - intros filter r s' H. rewrite (DeleteMany_run _ _ _ _ Hd), H. reflexivity.
Qed.

(** C1 (FindMany): when [Find] fails, the driver returns a nil cursor and
    the error.  [FindMany] does not test that error; it calls [Next] on the
    nil cursor and panics.  The caller never receives the error of [Find]. *)
Theorem FindMany_loses_Find_error c d filter res st e s' :
  heap st !! DB_ c = Some d ->
  srv_Find (ctx d) (collection c) filter (server st) = (None, Some e, s') ->
  FindMany c filter res st = (Panicked, set_server s' st).
Proof.
  intros Hd H. rewrite (FindMany_run _ _ _ _ _ Hd), H. reflexivity.
Qed.

(** C10: on a driver error the updates return the counts 0 and 0, and the
    inserts return the empty string, which is neither nil nor an empty
    sequence. *)
Theorem failed_write_zero_values c d st :
  heap st !! DB_ c = Some d ->
  (forall filter update r e s',
     srv_UpdateOne (ctx d) (collection c) filter update (server st) = (r, Some e, s') ->
     UpdateOne c filter update st = (Returned (0, 0, Some e), set_server s' st)) /\
  (forall filter update r e s',
     srv_UpdateMany (ctx d) (collection c) filter update (server st) = (r, Some e, s') ->
     UpdateMany c filter update st = (Returned (0, 0, Some e), set_server s' st)) /\
  (forall new r e s',
     srv_InsertOne (ctx d) (collection c) new (server st) = (r, Some e, s') ->
     InsertOne c new st = (Returned (GoString EmptyString, Some e), set_server s' st)) /\
  (forall new r e s',
     srv_InsertMany (ctx d) (collection c) new (server st) = (r, Some e, s') ->
     InsertMany c new st = (Returned (GoString EmptyString, Some e), set_server s' st)) /\
  GoString EmptyString <> nil_any /\ GoString EmptyString <> GoSlice [].
Proof.
  intros Hd. repeat apply conj; try discriminate.
  - intros filter update r e s' H. rewrite (UpdateOne_run _ _ _ _ _ Hd), H.
    destruct r; reflexivity.
  - intros filter update r e s' H. rewrite (UpdateMany_run _ _ _ _ _ Hd), H.
    destruct r; reflexivity.
  - intros new r e s' H. rewrite (InsertOne_run _ _ _ _ Hd), H.
    destruct r; reflexivity.
  - intros new r e s' H. rewrite (InsertMany_run _ _ _ _ Hd), H.
    destruct r; reflexivity.
Qed.

(** C7: when the driver's delete call succeeds, [DeleteOne] and
    [DeleteMany] return nil whatever result the driver reports; the
    result, and with it the deleted count, does not reach the caller. *)
Theorem delete_success_is_silent c d st filter :
  heap st !! DB_ c = Some d ->
  (forall r s',
     srv_DeleteOne (ctx d) (collection c) filter (server st) = (r, None, s') ->
     DeleteOne c filter st = (Returned None, set_server s' st)) /\
  (forall r s',
     srv_DeleteMany (ctx d) (collection c) filter (server st) = (r, None, s') ->
     DeleteMany c filter st = (Returned None, set_server s' st)).
Proof.
  intros Hd. split; intros r s' H.
  - rewrite (DeleteOne_run _ _ _ _ Hd), H. reflexivity.
  - rewrite (DeleteMany_run _ _ _ _ Hd), H. reflexivity.
Qed.

(** C9: [NewCollection] on a database handle returns, for every name, a
    collection handle and leaves the whole state as it was: no round trip,
    no cursor, no error result.  The handle holds the parent's address, so
    its context and client are the parent's, now and in every later
    state. *)
Theorem NewCollection_inherits wrapper d collectionName st :
  heap st !! wrapper = Some d ->
  exists c,
    NewCollection wrapper collectionName st = (Returned c, st) /\
    DB_ c = wrapper /\
    collection c = database_Collection (db d) collectionName /\
    Collection_ctx c st = (Returned (ctx d), st) /\
    Collection_client c st = (Returned (client d), st) /\
    (forall st' d', heap st' !! wrapper = Some d' ->
       Collection_ctx c st' = (Returned (ctx d'), st') /\
       Collection_client c st' = (Returned (client d'), st')).
Proof.
  intros Hd.
  exists {| DB_ := wrapper; collection := database_Collection (db d) collectionName |}.
  split.
  { unfold NewCollection, go_bind, deref. rewrite Hd. reflexivity. }
  repeat apply conj; try reflexivity.
  - apply Collection_ctx_run. exact Hd.
  - apply Collection_client_run. exact Hd.
  - intros st' d' Hd'. split.
    + apply Collection_ctx_run. exact Hd'.
    + apply Collection_client_run. exact Hd'.
Qed.
End ErrorPaths.

(** C1 at a concrete input: the context is cancelled, [Find] fails. *)
Lemma FindMany_loses_Find_error_witness :
  srv_Find (Driver := Mem.driver) Mem.Canceled Mem.users (Mem.name_is "a") Mem.srv0
    = (None, Some Mem.canceled, Mem.srv0) /\
  FindMany Mem.coll_users (Mem.name_is "a") [] (Mem.st_of Mem.Canceled Mem.srv0)
    = (Panicked, Mem.st_of Mem.Canceled Mem.srv0).
Proof.
  split; [reflexivity|].
  apply (FindMany_loses_Find_error (D := Mem.driver) Mem.coll_users
           (Mem.parent Mem.Canceled)
           (Mem.name_is "a") [] (Mem.st_of Mem.Canceled Mem.srv0) Mem.canceled Mem.srv0);
    reflexivity.
Defined.

(** C10 at a concrete input: an update under a cancelled context. *)
Lemma failed_write_zero_values_witness :
  UpdateOne Mem.coll_users (Mem.name_is "a") [("$set", BsonD [("age", GoInt64 3)])]
            (Mem.st_of Mem.Canceled Mem.srv0)
  = (Returned (0, 0, Some Mem.canceled), Mem.st_of Mem.Canceled Mem.srv0).
Proof.
  apply (proj1 (failed_write_zero_values (D := Mem.driver) Mem.coll_users
           (Mem.parent Mem.Canceled)
           (Mem.st_of Mem.Canceled Mem.srv0) eq_refl)
         (Mem.name_is "a") [("$set", BsonD [("age", GoInt64 3)])] None Mem.canceled Mem.srv0).
  reflexivity.
Defined.

(** C7 at a concrete input: a delete whose filter matches nothing. *)
Lemma delete_success_is_silent_witness :
  matching (Driver := Mem.driver) Mem.srv0 Mem.users (Mem.name_is "z") = [] /\
  DeleteOne Mem.coll_users (Mem.name_is "z") Mem.st0 = (Returned None, Mem.st0).
Proof.
  split; [reflexivity|].
  apply (proj1 (delete_success_is_silent (D := Mem.driver) Mem.coll_users
           (Mem.parent Mem.Background)
           Mem.st0 (Mem.name_is "z") eq_refl)
         (Some {| DeletedCount := 0 |}) Mem.srv0).
  reflexivity.
Defined.

(** C9 at a concrete input: a handle made from the first database handle. *)
Lemma NewCollection_inherits_witness :
  exists c,
    NewCollection 0 "users" Mem.st0 = (Returned c, Mem.st0) /\
    DB_ c = 0%nat /\
    collection c = Mem.users /\
    Collection_ctx c Mem.st0 = (Returned Mem.Background, Mem.st0) /\
    Collection_client c Mem.st0 = (Returned "mongodb://localhost:27017", Mem.st0) /\
    (forall st' d', heap st' !! 0%nat = Some d' ->
       Collection_ctx c st' = (Returned (ctx d'), st') /\
       Collection_client c st' = (Returned (client d'), st')).
Proof.
  apply (NewCollection_inherits (D := Mem.driver) 0
           (Mem.parent Mem.Background)
           "users" Mem.st0 eq_refl).
Defined.

(** ** FindMany *)

Section FindManyFacts.
Context {D : Driver}.

Lemma scan_all docs :
  Forall decodes docs -> scan docs = (decoded <$> docs, None).
Proof.
  induction 1 as [|r rest Hr _ IH]; [reflexivity|].
  cbn [scan]. unfold decodes in Hr.
  destruct (bson_Unmarshal r reflect_New_arrType) as [doc err] eqn:Hu.
  cbn in Hr. subst err. rewrite IH, fmap_cons.
  change (decoded r) with (fst (bson_Unmarshal r reflect_New_arrType)).
  rewrite Hu. reflexivity.
Qed.

Lemma scan_none docs :
  snd (scan docs) = None -> Forall decodes docs.
Proof.
  induction docs as [|r rest IH]; intros H; [constructor|].
  cbn [scan] in H. unfold decodes.
  destruct (bson_Unmarshal r reflect_New_arrType) as [doc [e|]] eqn:Hu; [discriminate|].
  constructor; [rewrite Hu; reflexivity|].
  apply IH. destruct (scan rest) as [ds stop]. exact H.
Qed.

Lemma cursor_last (st st1 : State) (cu : Cursor Raw) :
  cursors (set_cursors (cursors st ++ [cu]) st1) !! length (cursors st) = Some cu.
Proof. cbn. apply list_lookup_middle. reflexivity. Qed.

(** C2: on the two error paths, a document that fails to decode and a
    cursor that ends with an error, [FindMany] returns while the cursor it
    opened has not been closed. *)
Theorem FindMany_error_paths_leave_cursor_open c d filter res st fr err s' :
  heap st !! DB_ c = Some d ->
  srv_Find (ctx d) (collection c) filter (server st) = (Some fr, err, s') ->
  snd (scan (fr_docs fr)) <> None \/ fr_terminal fr <> None ->
  exists r st' cu,
    FindMany c filter res st = (Returned r, st') /\
    cursors st' !! length (cursors st) = Some cu /\
    closes cu = 0%nat.
Proof.
  intros Hd Hfind Hpath. rewrite (FindMany_run _ _ _ _ _ Hd), Hfind. cbn zeta.
  assert (Hleft : closes (after_loop (fresh_cursor fr)) = 0%nat).
  { unfold after_loop. destruct (snd (scan (batch (fresh_cursor fr)))) as [[[? ?] ?]|];
      reflexivity. }
  destruct (snd (scan (fr_docs fr))) as [[[r rest] e]|] eqn:Hstop.
  - eexists _, _, _. split; [reflexivity|]. split; [apply cursor_last|exact Hleft].
  - destruct (fr_terminal fr) as [e|] eqn:Hterm.
    + eexists _, _, _. split; [reflexivity|]. split; [apply cursor_last|exact Hleft].
    + destruct Hpath as [H|H]; contradiction.
Qed.

(** C3: [Find] succeeded, every document decoded, and the cursor ended with
    the error [e].  [FindMany] keeps the decoded documents in the slice but
    returns the error variable of [Find], which is nil: the caller is not
    told about [e]. *)
Theorem FindMany_cursor_error_returns_nil c d filter res st fr s' e :
  heap st !! DB_ c = Some d ->
  srv_Find (ctx d) (collection c) filter (server st) = (Some fr, None, s') ->
  Forall decodes (fr_docs fr) ->
  fr_terminal fr = Some e ->
  exists st',
    FindMany c filter res st = (Returned (res ++ (decoded <$> fr_docs fr), None), st').
Proof.
  intros Hd Hfind Hdec Hterm. rewrite (FindMany_run _ _ _ _ _ Hd), Hfind. cbn zeta.
  rewrite (scan_all _ Hdec). cbn [fst snd]. rewrite Hterm. eexists. reflexivity.
Qed.

(** The run on which nothing is lost: [Find] returned a cursor and no
    error, the cursor delivered the N documents the filter selects, and
    each of them decoded.  Then [FindMany] returns nil and the caller's
    slice has grown by exactly those N documents, decoded, in the order of
    the store: the element appended i-th is the i-th document of the
    cursor, decoded. *)
Theorem FindMany_success c d filter res st fr s' :
  heap st !! DB_ c = Some d ->
  srv_Find (ctx d) (collection c) filter (server st) = (Some fr, None, s') ->
  fr_docs fr = matching (server st) (collection c) filter ->
  Forall decodes (fr_docs fr) ->
  let found := matching (server st) (collection c) filter in
  exists res' st',
    FindMany c filter res st = (Returned (res', None), st') /\
    res' = res ++ (decoded <$> found) /\
    length res' = (length res + length found)%nat /\
    (forall i r, found !! i = Some r -> res' !! (length res + i)%nat = Some (decoded r)).
Proof.
  intros Hd Hfind Hdocs Hdec found.
  rewrite (FindMany_run _ _ _ _ _ Hd), Hfind. cbn zeta.
  rewrite (scan_all _ Hdec). cbn [fst snd]. rewrite Hdocs. fold found.
  assert (Hlen : length (res ++ (decoded <$> found)) = (length res + length found)%nat).
  { rewrite length_app, length_fmap. reflexivity. }
  assert (Hnth : forall i r, found !! i = Some r ->
            (res ++ (decoded <$> found)) !! (length res + i)%nat = Some (decoded r)).
  { intros i r Hi. rewrite lookup_app_r by lia.
    replace (length res + i - length res)%nat with i by lia.
    rewrite list_lookup_fmap, Hi. reflexivity. }
  destruct (fr_terminal fr); eexists _, _; (split; [reflexivity|]); auto.
Qed.

(** C4: a nil return does not mean that all N matching documents were
    appended.  [Find] succeeded, the cursor delivered fewer documents than
    the filter selects and then ended with the error [e], and every
    delivered document decoded.  [FindMany] returns nil, so the call is
    successful for the caller, with only the delivered documents appended:
    fewer than N. *)
Theorem FindMany_nil_return_misses_documents c d filter res st fr s' e :
  heap st !! DB_ c = Some d ->
  srv_Find (ctx d) (collection c) filter (server st) = (Some fr, None, s') ->
  Forall decodes (fr_docs fr) ->
  fr_terminal fr = Some e ->
  (length (fr_docs fr) < length (matching (server st) (collection c) filter))%nat ->
  exists res' st',
    FindMany c filter res st = (Returned (res', None), st') /\
    res' = res ++ (decoded <$> fr_docs fr) /\
    (length res' < length res + length (matching (server st) (collection c) filter))%nat.
Proof.
  intros Hd Hfind Hdec Hterm Hfew.
  rewrite (FindMany_run _ _ _ _ _ Hd), Hfind. cbn zeta.
  rewrite (scan_all _ Hdec). cbn [fst snd]. rewrite Hterm.
  eexists _, _. split; [reflexivity|]. split; [reflexivity|].
  rewrite length_app, length_fmap. lia.
Qed.


(** X11: whenever [FindMany] returns nil on a cursor that [Find] opened,
    every document the cursor delivered decoded and was appended, in
    order. *)
Lemma FindMany_nil_inv c d filter res st fr err s' res' st' :
  heap st !! DB_ c = Some d ->
  srv_Find (ctx d) (collection c) filter (server st) = (Some fr, err, s') ->
  FindMany c filter res st = (Returned (res', None), st') ->
  Forall decodes (fr_docs fr) /\ res' = res ++ (decoded <$> fr_docs fr).
Proof.
  intros Hd Hfind Hrun. rewrite (FindMany_run _ _ _ _ _ Hd), Hfind in Hrun.
  cbn zeta in Hrun.
  destruct (snd (scan (fr_docs fr))) as [[[r rest] e]|] eqn:Hstop; [discriminate|].
  pose proof (scan_none _ Hstop) as Hdec. split; [exact Hdec|].
  rewrite (scan_all _ Hdec) in Hrun. cbn [fst] in Hrun.
  destruct (fr_terminal fr); injection Hrun as <- _; reflexivity.
Qed.

(** The decode-error path does forward the decoder's error unchanged. *)
Lemma FindMany_forwards_decode_error c d filter res st fr err s' r rest e :
  heap st !! DB_ c = Some d ->
  srv_Find (ctx d) (collection c) filter (server st) = (Some fr, err, s') ->
  snd (scan (fr_docs fr)) = Some (r, rest, e) ->
  exists st',
    FindMany c filter res st = (Returned (res ++ fst (scan (fr_docs fr)), Some e), st').
Proof.
  intros Hd Hfind Hstop. rewrite (FindMany_run _ _ _ _ _ Hd), Hfind. cbn zeta.
  rewrite Hstop. eexists. reflexivity.
Qed.

(** A nil return alone does not tell a complete result from a cursor that
    broke: both paths return nil. *)
Lemma FindMany_nil_return c d filter res st fr s' :
  heap st !! DB_ c = Some d ->
  srv_Find (ctx d) (collection c) filter (server st) = (Some fr, None, s') ->
  Forall decodes (fr_docs fr) ->
  exists st', FindMany c filter res st
              = (Returned (res ++ (decoded <$> fr_docs fr), None), st').
Proof.
  intros Hd Hfind Hdec. rewrite (FindMany_run _ _ _ _ _ Hd), Hfind. cbn zeta.
  rewrite (scan_all _ Hdec). cbn [fst snd].
  destruct (fr_terminal fr); eexists; reflexivity.
Qed.
End FindManyFacts.

(** ** FindOne, the updates and InsertMany against the store *)

Section StoreFacts.
Context {D : Driver}.

(** C5: the filter selects no document, and [FindOne] of the driver hands
    back only documents the filter selects.  Then [FindOne] returns a
    non-nil error and the caller's container is what it was. *)
Theorem FindOne_no_match c d filter res st :
  heap st !! DB_ c = Some d ->
  matching (server st) (collection c) filter = [] ->
  (forall r,
     sr_rdr (fst (srv_FindOne (ctx d) (collection c) filter (server st))) = Some r ->
     In r (matching (server st) (collection c) filter)) ->
  exists e st', FindOne c filter res st = (Returned (res, Some e), st').
Proof.
  intros Hd Hnone Hsound. rewrite (FindOne_run _ _ _ _ _ Hd).
  destruct (srv_FindOne (ctx d) (collection c) filter (server st)) as [sr s'].
  cbn [fst] in Hsound. unfold SingleResult_Decode.
  destruct (sr_err sr) as [e|]; [eexists _, _; reflexivity|].
  destruct (sr_rdr sr) as [r|]; [|eexists _, _; reflexivity].
  specialize (Hsound r eq_refl). rewrite Hnone in Hsound. destruct Hsound.
Qed.

(** The two halves of that statement exclude each other as soon as the
    filter selects two documents or more and [UpdateOne] succeeds. *)
Lemma update_counts_inconsistent c filter update st m k st' :
  (2 <= length (matching (server st) (collection c) filter))%nat ->
  UpdateOne c filter update st = (Returned (m, k, None), st') ->
  ~ update_counts_as_stated c filter update st.
Proof.
  intros HM Hrun [Hone _]. destruct (Hone _ _ _ Hrun) as ([-> | ->] & _ & _ & HmM); lia.
Qed.

(** C6, amended: for every successful [UpdateOne] call the two counts are
    each 0 or 1 and the modified count is at most the matched count; for
    every successful [UpdateOne] on a filter matching M documents the
    matched count is [min 1 M]; for every successful [UpdateMany] on a
    filter matching M documents the matched count is M.  Each of the three
    parts rests on what the driver reports for that call alone: counts
    with [0 <= modified <= matched <= 1], [min 1 M] matched documents, [M]
    matched documents. *)
Theorem update_counts_from_driver c d filter update st :
  heap st !! DB_ c = Some d ->
  let M := Z.of_nat (length (matching (server st) (collection c) filter)) in
  ((forall r s',
      srv_UpdateOne (ctx d) (collection c) filter update (server st) = (Some r, None, s') ->
      0 <= ModifiedCount r <= MatchedCount r /\ MatchedCount r <= 1) ->
   forall m k st', UpdateOne c filter update st = (Returned (m, k, None), st') ->
     (m = 0 \/ m = 1) /\ (k = 0 \/ k = 1) /\ k <= m) /\
  ((forall r s',
      srv_UpdateOne (ctx d) (collection c) filter update (server st) = (Some r, None, s') ->
      MatchedCount r = Z.min 1 M) ->
   forall m k st', UpdateOne c filter update st = (Returned (m, k, None), st') ->
     m = Z.min 1 M) /\
  ((forall r s',
      srv_UpdateMany (ctx d) (collection c) filter update (server st) = (Some r, None, s') ->
      MatchedCount r = M) ->
   forall m k st', UpdateMany c filter update st = (Returned (m, k, None), st') ->
     m = M).
Proof.
  intros Hd M. repeat apply conj; intros Hdrv m k st' Hrun.
  - rewrite (UpdateOne_run _ _ _ _ _ Hd) in Hrun.
    destruct (srv_UpdateOne (ctx d) (collection c) filter update (server st))
      as [[[r|] [e|]] s'] eqn:Hsrv; try discriminate.
    injection Hrun as <- <- _. destruct (Hdrv r s' eq_refl) as [Hk Hm]. lia.
  - rewrite (UpdateOne_run _ _ _ _ _ Hd) in Hrun.
    destruct (srv_UpdateOne (ctx d) (collection c) filter update (server st))
      as [[[r|] [e|]] s'] eqn:Hsrv; try discriminate.
    injection Hrun as <- _ _. exact (Hdrv r s' eq_refl).
  - rewrite (UpdateMany_run _ _ _ _ _ Hd) in Hrun.
    destruct (srv_UpdateMany (ctx d) (collection c) filter update (server st))
      as [[[r|] [e|]] s'] eqn:Hsrv; try discriminate.
    injection Hrun as <- _ _. exact (Hdrv r s' eq_refl).
Qed.

(** C8: where the driver's [InsertMany], when it succeeds, reports one
    identifier per input document, the i-th being the one the i-th document
    is kept under, a successful [InsertMany] returns a sequence of exactly
    as many identifiers as there are input documents, the i-th belonging to
    the i-th document. *)
Theorem InsertMany_identifiers c d new st v st' :
  heap st !! DB_ c = Some d ->
  (forall r s',
     srv_InsertMany (ctx d) (collection c) new (server st) = (Some r, None, s') ->
     Forall2 (fun doc i => stored_under s' (collection c) i = Some doc)
             new (InsertedIDs r)) ->
  InsertMany c new st = (Returned (v, None), st') ->
  exists ids,
    v = GoSlice ids /\
    length ids = length new /\
    (forall i doc, new !! i = Some doc ->
       exists ident, ids !! i = Some ident /\
                     stored_under (server st') (collection c) ident = Some doc).
Proof.
  intros Hd Hdrv Hrun. rewrite (InsertMany_run _ _ _ _ Hd) in Hrun.
  destruct (srv_InsertMany (ctx d) (collection c) new (server st))
    as [[[r|] [e|]] s'] eqn:Hsrv; try discriminate.
  injection Hrun as <- <-. specialize (Hdrv r s' eq_refl).
  exists (InsertedIDs r). split; [reflexivity|]. split.
  - symmetry. eapply Forall2_length. exact Hdrv.
  - intros i doc Hi.
    destruct (Forall2_lookup_l _ _ _ _ _ Hdrv Hi) as (ident & Hident & Hkept).
    exists ident. split; [exact Hident|exact Hkept].
Qed.
End StoreFacts.

(** ** The theorems at concrete inputs *)

(** C2 at two concrete inputs.  First, the second of the two matching
    documents does not decode: [FindMany] returns the decoder's error with
    one document appended, and the cursor is still open.  Second, the
    connection is lost after one document: the cursor is still open too. *)
Lemma FindMany_error_paths_leave_cursor_open_witness :
  FindMany Mem.coll_users (Mem.name_is "a") [] (Mem.st_of Mem.Background Mem.srv_bad)
    = (Returned ([BsonD [("_id", ObjectID 1); ("name", GoString "a")]],
                 Some (DecodeError "invalid document length")),
       {| heap := [Mem.parent Mem.Background]; server := Mem.srv_bad;
          cursors := [{| batch := []; final := None;
                         current := Some {| Mem.id := ObjectID 2;
                                            Mem.body := Mem.name_is "a";
                                            Mem.wellformed := false |};
                         cur_err := None; closes := 0 |}] |}) /\
  (exists r st' cu,
     FindMany Mem.coll_users (Mem.name_is "a") [] (Mem.st_of Mem.Background Mem.srv_bad)
       = (Returned r, st') /\
     cursors st' !! 0%nat = Some cu /\ closes cu = 0%nat) /\
  (exists r st' cu,
     FindMany Mem.coll_users (Mem.name_is "a") [] (Mem.st_of Mem.Background Mem.srv_cut)
       = (Returned r, st') /\
     cursors st' !! 0%nat = Some cu /\ closes cu = 0%nat).
Proof.
  split; [vm_compute; reflexivity|]. split.
  - apply (FindMany_error_paths_leave_cursor_open (D := Mem.driver) Mem.coll_users
             (Mem.parent Mem.Background) (Mem.name_is "a") []
             (Mem.st_of Mem.Background Mem.srv_bad)
             {| fr_docs := [Mem.named 1 "a";
                            {| Mem.id := ObjectID 2; Mem.body := Mem.name_is "a";
                               Mem.wellformed := false |}];
                fr_terminal := None |}
             None Mem.srv_bad).
    + reflexivity.
    + reflexivity.
    + left. vm_compute. discriminate.
  - apply (FindMany_error_paths_leave_cursor_open (D := Mem.driver) Mem.coll_users
             (Mem.parent Mem.Background) (Mem.name_is "a") []
             (Mem.st_of Mem.Background Mem.srv_cut)
             {| fr_docs := [Mem.named 1 "a"];
                fr_terminal := Some (CommandError "connection reset") |}
             None Mem.srv_cut).
    + reflexivity.
    + reflexivity.
    + right. discriminate.
Defined.

(** C3 at a concrete input: two documents match, the connection is lost
    after the first.  [FindMany] returns nil with one document. *)
Lemma FindMany_cursor_error_returns_nil_witness :
  length (matching (Driver := Mem.driver) Mem.srv_cut Mem.users (Mem.name_is "a")) = 2%nat /\
  exists st',
    FindMany Mem.coll_users (Mem.name_is "a") [] (Mem.st_of Mem.Background Mem.srv_cut)
      = (Returned ([BsonD [("_id", ObjectID 1); ("name", GoString "a")]], None), st').
Proof.
  split; [reflexivity|].
  apply (FindMany_cursor_error_returns_nil (D := Mem.driver) Mem.coll_users
           (Mem.parent Mem.Background) (Mem.name_is "a") []
           (Mem.st_of Mem.Background Mem.srv_cut)
           {| fr_docs := [Mem.named 1 "a"];
              fr_terminal := Some (CommandError "connection reset") |}
           Mem.srv_cut (CommandError "connection reset")).
  - reflexivity.
  - reflexivity.
  - repeat constructor.
  - reflexivity.
Defined.

(** C4 at a concrete input: two documents are named "a", the connection
    is lost after the first.  [FindMany] returns nil with one document. *)
Lemma FindMany_nil_return_misses_documents_witness :
  length (matching (Driver := Mem.driver) Mem.srv_cut Mem.users (Mem.name_is "a")) = 2%nat /\
  exists res' st',
    FindMany Mem.coll_users (Mem.name_is "a") [] (Mem.st_of Mem.Background Mem.srv_cut)
      = (Returned (res', None), st') /\
    res' = [BsonD [("_id", ObjectID 1); ("name", GoString "a")]] /\
    (length res' < 0 + 2)%nat.
Proof.
  split; [reflexivity|].
  apply (FindMany_nil_return_misses_documents (D := Mem.driver) Mem.coll_users
           (Mem.parent Mem.Background) (Mem.name_is "a") []
           (Mem.st_of Mem.Background Mem.srv_cut)
           {| fr_docs := [Mem.named 1 "a"];
              fr_terminal := Some (CommandError "connection reset") |}
           Mem.srv_cut (CommandError "connection reset")).
  - reflexivity.
  - reflexivity.
  - repeat constructor.
  - reflexivity.
  - vm_compute. lia.
Defined.

(** The run on which nothing is lost, at a concrete input: the scenario of
    the specification, two documents named "a". *)
Lemma FindMany_success_witness :
  exists res' st',
    FindMany Mem.coll_users (Mem.name_is "a") [] Mem.st0 = (Returned (res', None), st') /\
    res' = [BsonD [("_id", ObjectID 1); ("name", GoString "a")];
            BsonD [("_id", ObjectID 2); ("name", GoString "a")]] /\
    length res' = 2%nat /\
    (forall i r, [Mem.named 1 "a"; Mem.named 2 "a"] !! i = Some r ->
       res' !! (0 + i)%nat = Some (decoded (D := Mem.driver) r)).
Proof.
  apply (FindMany_success (D := Mem.driver) Mem.coll_users
           (Mem.parent Mem.Background) (Mem.name_is "a") [] Mem.st0
           {| fr_docs := [Mem.named 1 "a"; Mem.named 2 "a"]; fr_terminal := None |}
           Mem.srv0).
  - reflexivity.
  - reflexivity.
  - reflexivity.
  - repeat constructor.
Defined.

(** The scenario of the specification through the wrapper: two documents,
    then none, then one. *)
Example scenario_runs :
  fst (Mem.scenario Mem.blank)
  = Returned ([BsonD [("_id", ObjectID 1); ("name", GoString "a")];
               BsonD [("_id", ObjectID 2); ("name", GoString "a")]],
              [],
              [BsonD [("_id", ObjectID 3); ("name", GoString "b")]]).
Proof. vm_compute. reflexivity. Qed.

(** C5 at a concrete input: no document is named "z". *)
Lemma FindOne_no_match_witness :
  exists e st',
    FindOne Mem.coll_users (Mem.name_is "z") nil_any Mem.st0 = (Returned (nil_any, Some e), st').
Proof.
  apply (FindOne_no_match (D := Mem.driver) Mem.coll_users
           (Mem.parent Mem.Background) (Mem.name_is "z") nil_any Mem.st0).
  - reflexivity.
  - reflexivity.
  - intros r H. vm_compute in H. discriminate H.
Defined.

(** C6, counterexample: two documents are named "a".  [UpdateOne] succeeds
    and reports one matched document, not two. *)
Lemma update_counts_counterexample :
  UpdateOne Mem.coll_users (Mem.name_is "a") (Mem.set_age 3) Mem.st0
    = (Returned (1, 1, None),
       Mem.st_of Mem.Background
         {| Mem.colls := [(Mem.users,
              [{| Mem.id := ObjectID 1;
                  Mem.body := [("name", GoString "a"); ("age", GoInt64 3)];
                  Mem.wellformed := true |};
               Mem.named 2 "a"; Mem.named 3 "b"])];
            Mem.next_id := 4; Mem.drop_after := None |}) /\
  length (matching (Driver := Mem.driver) Mem.srv0 Mem.users (Mem.name_is "a")) = 2%nat /\
  ~ update_counts_as_stated Mem.coll_users (Mem.name_is "a") (Mem.set_age 3) Mem.st0.
Proof.
  assert (Hrun : UpdateOne Mem.coll_users (Mem.name_is "a") (Mem.set_age 3) Mem.st0
    = (Returned (1, 1, None),
       Mem.st_of Mem.Background
         {| Mem.colls := [(Mem.users,
              [{| Mem.id := ObjectID 1;
                  Mem.body := [("name", GoString "a"); ("age", GoInt64 3)];
                  Mem.wellformed := true |};
               Mem.named 2 "a"; Mem.named 3 "b"])];
            Mem.next_id := 4; Mem.drop_after := None |})) by (vm_compute; reflexivity).
  split; [exact Hrun|]. split; [reflexivity|].
  intros [Hone _]. destruct (Hone _ _ _ Hrun) as (_ & _ & _ & HM).
  vm_compute in HM. discriminate HM.
Qed.

(** C6, amended, at the same input. *)
Lemma update_counts_from_driver_witness :
  (forall m k st',
     UpdateOne Mem.coll_users (Mem.name_is "a") (Mem.set_age 3) Mem.st0
       = (Returned (m, k, None), st') ->
     (m = 0 \/ m = 1) /\ (k = 0 \/ k = 1) /\ k <= m) /\
  (forall m k st',
     UpdateOne Mem.coll_users (Mem.name_is "a") (Mem.set_age 3) Mem.st0
       = (Returned (m, k, None), st') ->
     m = Z.min 1 2) /\
  (forall m k st',
     UpdateMany Mem.coll_users (Mem.name_is "a") (Mem.set_age 3) Mem.st0
       = (Returned (m, k, None), st') ->
     m = 2).
Proof.
  pose proof (update_counts_from_driver (D := Mem.driver) Mem.coll_users
                (Mem.parent Mem.Background) (Mem.name_is "a") (Mem.set_age 3) Mem.st0
                eq_refl) as (Hbits & Hone & Hmany).
  repeat apply conj.
  - apply Hbits. intros r s' H. vm_compute in H. injection H as <- _. vm_compute.
    repeat split; discriminate.
  - apply Hone. intros r s' H. vm_compute in H. injection H as <- _. reflexivity.
  - apply Hmany. intros r s' H. vm_compute in H. injection H as <- _. reflexivity.
Defined.

(** C8 at a concrete input: two documents inserted into the collection. *)
Lemma InsertMany_identifiers_witness :
  exists ids,
    GoSlice [ObjectID 4; ObjectID 5] = GoSlice ids /\
    length ids = 2%nat /\
    (forall i doc,
       [BsonD (Mem.name_is "c"); BsonD (Mem.name_is "d")] !! i = Some doc ->
       exists ident, ids !! i = Some ident /\
         stored_under (Driver := Mem.driver)
           (Mem.with_docs
              {| Mem.colls := Mem.colls Mem.srv0; Mem.next_id := 6; Mem.drop_after := None |}
              Mem.users
              [Mem.named 1 "a"; Mem.named 2 "a"; Mem.named 3 "b";
               Mem.named 4 "c"; Mem.named 5 "d"])
           Mem.users ident = Some doc).
Proof.
  apply (InsertMany_identifiers (D := Mem.driver) Mem.coll_users
           (Mem.parent Mem.Background)
           [BsonD (Mem.name_is "c"); BsonD (Mem.name_is "d")] Mem.st0
           (GoSlice [ObjectID 4; ObjectID 5])
           (Mem.st_of Mem.Background
              (Mem.with_docs
                 {| Mem.colls := Mem.colls Mem.srv0; Mem.next_id := 6;
                    Mem.drop_after := None |}
                 Mem.users
                 [Mem.named 1 "a"; Mem.named 2 "a"; Mem.named 3 "b";
                  Mem.named 4 "c"; Mem.named 5 "d"]))).
  - reflexivity.
  - intros r s' H. vm_compute in H. injection H as <- <-.
    repeat constructor.
  - vm_compute. reflexivity.
Defined.

(** ** Further properties of client.go *)

Section Handles.
Context {D : Driver}.

(** X1: [New] on a nil client panics inside [client.Database(name)] and
    leaves the state as it was.  On a client, [New] makes no round trip and
    opens no cursor: it returns an address that was free and keeps every
    object that was there, and the collection handle [NewCollection] then
    builds from it reads exactly the client and the context that were
    passed to [New], with the driver collection
    [client.Database(name).Collection(collectionName)]. *)
Theorem New_then_NewCollection (cl : Client) (name : string) (cx : Context)
  (collectionName : string) (st : State) :
  let p := length (heap st) in
  let d := {| db := client_Database cl name; client := cl; ctx := cx |} in
  let st1 := set_heap (heap st ++ [d]) st in
  let c := {| DB_ := p;
              collection := database_Collection (client_Database cl name) collectionName |} in
  New None name cx st = (Panicked, st) /\
  (let* h := New None name cx in NewCollection h collectionName) st = (Panicked, st) /\
  New (Some cl) name cx st = (Returned p, st1) /\
  heap st !! p = None /\
  (forall q d', heap st !! q = Some d' -> heap st1 !! q = Some d') /\
  server st1 = server st /\ cursors st1 = cursors st /\
  (let* h := New (Some cl) name cx in NewCollection h collectionName) st
    = (Returned c, st1) /\
  Collection_ctx c st1 = (Returned cx, st1) /\
  Collection_client c st1 = (Returned cl, st1).
Proof.
  intros p d st1 c.
  assert (Hp : heap st1 !! p = Some d).
  { unfold st1, p. cbn. apply list_lookup_middle. reflexivity. }
  repeat apply conj; try reflexivity.
  - apply lookup_ge_None. unfold p. lia.
  - intros q d' Hq. unfold st1. cbn. rewrite lookup_app_l; [exact Hq|].
    eapply lookup_lt_Some; eassumption.
  - unfold go_bind at 1. unfold New, alloc. fold p d st1.
    unfold NewCollection, go_bind, deref. rewrite Hp. reflexivity.
  - apply (Collection_ctx_run c d st1 Hp).
  - apply (Collection_client_run c d st1 Hp).
Qed.

(** X2: a method called through a handle whose parent pointer is nil or
    dangling panics when it reads the context, before anything reaches the
    driver: the state is what it was.  [NewCollection] on such a pointer
    panics in the same way. *)
Theorem dangling_handle_panics c st :
  heap st !! DB_ c = None ->
  Drop c st = (Panicked, st) /\
  (forall filter res, FindOne c filter res st = (Panicked, st)) /\
  (forall filter res, FindMany c filter res st = (Panicked, st)) /\
  (forall filter update, UpdateOne c filter update st = (Panicked, st)) /\
  (forall filter update, UpdateMany c filter update st = (Panicked, st)) /\
  (forall new, InsertOne c new st = (Panicked, st)) /\
  (forall new, InsertMany c new st = (Panicked, st)) /\
  (forall filter, DeleteOne c filter st = (Panicked, st)) /\
  (forall filter, DeleteMany c filter st = (Panicked, st)) /\
  (forall collectionName, NewCollection (DB_ c) collectionName st = (Panicked, st)).
Proof.
  intros Hd. pose proof (Collection_ctx_nil c st Hd) as Hctx.
  repeat apply conj; intros;
    try (unfold Drop, FindOne, FindMany, UpdateOne, UpdateMany, InsertOne,
           InsertMany, DeleteOne, DeleteMany;
         unfold go_bind at 1; rewrite Hctx; reflexivity).
  unfold NewCollection, go_bind, deref. rewrite Hd. reflexivity.
Qed.

(** X3: the eight methods that make a single driver call change nothing
    but the deployment: whatever the handle and whatever the driver
    answers, the [DB] objects and the open cursors are the same after the
    call as before it. *)
Theorem single_call_frame c st :
  let same (st' : State) := heap st' = heap st /\ cursors st' = cursors st in
  same (snd (Drop c st)) /\
  (forall filter res, same (snd (FindOne c filter res st))) /\
  (forall filter update, same (snd (UpdateOne c filter update st))) /\
  (forall filter update, same (snd (UpdateMany c filter update st))) /\
  (forall new, same (snd (InsertOne c new st))) /\
  (forall new, same (snd (InsertMany c new st))) /\
  (forall filter, same (snd (DeleteOne c filter st))) /\
  (forall filter, same (snd (DeleteMany c filter st))).
Proof.
  intros same. unfold same.
  destruct (heap st !! DB_ c) as [d|] eqn:Hd.
  - repeat apply conj; intros.
    all: first
      [ rewrite (Drop_run _ _ _ Hd)
      | rewrite (FindOne_run _ _ _ _ _ Hd)
      | rewrite (UpdateOne_run _ _ _ _ _ Hd)
      | rewrite (UpdateMany_run _ _ _ _ _ Hd)
      | rewrite (InsertOne_run _ _ _ _ Hd)
      | rewrite (InsertMany_run _ _ _ _ Hd)
      | rewrite (DeleteOne_run _ _ _ _ Hd)
      | rewrite (DeleteMany_run _ _ _ _ Hd) ].
    all: repeat match goal with
                | |- context [match ?x with _ => _ end] => destruct x
                end; split; reflexivity.
  - pose proof (Collection_ctx_nil c st Hd) as Hctx.
    repeat apply conj; intros;
      unfold Drop, FindOne, UpdateOne, UpdateMany, InsertOne, InsertMany,
        DeleteOne, DeleteMany;
      unfold go_bind; rewrite Hctx; split; reflexivity.
Qed.

(** X4: [FindMany] changes no [DB] object and no cursor that was open; it
    registers at most one cursor, the one it opened. *)
Theorem FindMany_frame c filter res st :
  heap (snd (FindMany c filter res st)) = heap st /\
  exists opened, cursors (snd (FindMany c filter res st)) = cursors st ++ opened /\
                 (length opened <= 1)%nat.
Proof.
  destruct (heap st !! DB_ c) as [d|] eqn:Hd.
  - rewrite (FindMany_run _ _ _ _ _ Hd).
    destruct (srv_Find (ctx d) (collection c) filter (server st)) as [[[fr|] err] s'].
    + cbn zeta.
      destruct (snd (scan (fr_docs fr))) as [[[r rest] e]|];
        [|destruct (fr_terminal fr)];
        (split; [reflexivity|]); eexists [_]; (split; [reflexivity|]); cbn; lia.
    + split; [reflexivity|]. exists []. rewrite app_nil_r. split; [reflexivity|]. cbn. lia.
  - assert (Hrun : FindMany c filter res st = (Panicked, st)).
    { unfold FindMany. unfold go_bind at 1. rewrite (Collection_ctx_nil c st Hd).
      reflexivity. }
    rewrite Hrun. split; [reflexivity|]. exists []. rewrite app_nil_r.
    split; [reflexivity|]. cbn. lia.
Qed.
End Handles.

Section FindManyPaths.
Context {D : Driver}.

Lemma scan_prefix docs :
  exists k, (k <= length docs)%nat /\
            fst (scan docs) = decoded <$> take k docs /\
            (snd (scan docs) = None -> k = length docs).
Proof.
  induction docs as [|r rest (k & Hk & Hfst & Hall)].
  - exists 0%nat. repeat split; reflexivity.
  - cbn [scan]. destruct (bson_Unmarshal r reflect_New_arrType) as [doc [e|]] eqn:Hu.
    + exists 0%nat. cbn. repeat split; [lia|discriminate].
    + exists (S k). destruct (scan rest) as [ds stop]. cbn in *.
      split; [lia|]. split.
      * rewrite Hfst. unfold decoded at 2. rewrite Hu. reflexivity.
      * intros H. rewrite (Hall H). reflexivity.
Qed.


Lemma scan_stop_inv docs r rest e :
  snd (scan docs) = Some (r, rest, e) ->
  exists pre, docs = pre ++ r :: rest /\ Forall decodes pre /\
              snd (bson_Unmarshal r reflect_New_arrType) = Some e /\
              fst (scan docs) = decoded <$> pre.
Proof.
  induction docs as [|p docs IH]; [discriminate|].
  cbn [scan]. destruct (bson_Unmarshal p reflect_New_arrType) as [doc [e'|]] eqn:Hu.
  - intros [= <- <- <-]. exists []. rewrite Hu. repeat split. constructor.
  - destruct (scan docs) as [ds stop] eqn:Hs. cbn [snd fst] in *. intros Hstop.
    destruct (IH Hstop) as (pre & -> & Hpre & Hr & Hfst).
    exists (p :: pre). repeat split; try assumption.
    + constructor; [unfold decodes; rewrite Hu; reflexivity|exact Hpre].
    + rewrite Hfst, fmap_cons. unfold decoded at 2. rewrite Hu. reflexivity.
Qed.

(** X5: [FindMany] only appends.  Whenever it returns, with or without an
    error, the caller's slice is what it was, followed by the first k
    documents of the cursor, decoded, in the cursor's order, for some k. *)
Theorem FindMany_appends_prefix c d filter res st fr err s' res' e st' :
  heap st !! DB_ c = Some d ->
  srv_Find (ctx d) (collection c) filter (server st) = (Some fr, err, s') ->
  FindMany c filter res st = (Returned (res', e), st') ->
  exists k, (k <= length (fr_docs fr))%nat /\
            res' = res ++ (decoded <$> take k (fr_docs fr)).
Proof.
  intros Hd Hfind Hrun. rewrite (FindMany_run _ _ _ _ _ Hd), Hfind in Hrun.
  cbn zeta in Hrun. destruct (scan_prefix (fr_docs fr)) as (k & Hk & Hfst & _).
  exists k. split; [exact Hk|]. rewrite <- Hfst.
  destruct (snd (scan (fr_docs fr))) as [[[r rest] e']|];
    [|destruct (fr_terminal fr)]; injection Hrun as <- _ _; reflexivity.
Qed.


(** X7: an error that [FindMany] returns is either the decoder's error for
    the first document that fails to decode, or, when every document
    decoded and the cursor ended with an error, the error variable of
    [Find].  The cursor's own error is not among them. *)
Theorem FindMany_error_origin c d filter res st fr err s' res' e st' :
  heap st !! DB_ c = Some d ->
  srv_Find (ctx d) (collection c) filter (server st) = (Some fr, err, s') ->
  FindMany c filter res st = (Returned (res', Some e), st') ->
  (exists pre r rest,
     fr_docs fr = pre ++ r :: rest /\ Forall decodes pre /\
     snd (bson_Unmarshal r reflect_New_arrType) = Some e /\
     res' = res ++ (decoded <$> pre)) \/
  (Forall decodes (fr_docs fr) /\ fr_terminal fr <> None /\ err = Some e /\
   res' = res ++ (decoded <$> fr_docs fr)).
Proof.
  intros Hd Hfind Hrun. rewrite (FindMany_run _ _ _ _ _ Hd), Hfind in Hrun.
  cbn zeta in Hrun.
  destruct (snd (scan (fr_docs fr))) as [[[r rest] e']|] eqn:Hstop.
  - left. destruct (scan_stop_inv _ _ _ _ Hstop) as (pre & Hdocs & Hpre & Hr & Hfst).
    injection Hrun as <- <- _. exists pre, r, rest. rewrite Hfst. auto.
  - right. pose proof (scan_none _ Hstop) as Hdec.
    rewrite (scan_all _ Hdec) in Hrun. cbn [fst] in Hrun.
    destruct (fr_terminal fr) as [e'|]; [|discriminate].
    injection Hrun as <- <- _. repeat split; [exact Hdec|discriminate].
Qed.
End FindManyPaths.

Section Inversion.
Context {D : Driver}.

(** X8: a nil error from a single-call method means that the driver's call
    returned a nil error, and what comes back with it is the driver's:
    the document [FindOne] decoded into the container, the counts of the
    update result, the identifier or the identifiers of the insert result.
    Each of these calls made one round trip. *)
Theorem nil_error_means_driver_success c d st :
  heap st !! DB_ c = Some d ->
  (forall st', Drop c st = (Returned None, st') ->
     exists s', srv_Drop (ctx d) (collection c) (server st) = (None, s') /\
                st' = set_server s' st) /\
  (forall filter res res' st', FindOne c filter res st = (Returned (res', None), st') ->
     exists r s',
       srv_FindOne (ctx d) (collection c) filter (server st)
         = ({| sr_err := None; sr_rdr := Some r |}, s') /\
       bson_Unmarshal r res = (res', None) /\ st' = set_server s' st) /\
  (forall filter update m k st',
     UpdateOne c filter update st = (Returned (m, k, None), st') ->
     exists r s',
       srv_UpdateOne (ctx d) (collection c) filter update (server st) = (Some r, None, s') /\
       m = MatchedCount r /\ k = ModifiedCount r /\ st' = set_server s' st) /\
  (forall filter update m k st',
     UpdateMany c filter update st = (Returned (m, k, None), st') ->
     exists r s',
       srv_UpdateMany (ctx d) (collection c) filter update (server st) = (Some r, None, s') /\
       m = MatchedCount r /\ k = ModifiedCount r /\ st' = set_server s' st) /\
  (forall new v st', InsertOne c new st = (Returned (v, None), st') ->
     exists r s',
       srv_InsertOne (ctx d) (collection c) new (server st) = (Some r, None, s') /\
       v = InsertedID r /\ st' = set_server s' st) /\
  (forall new v st', InsertMany c new st = (Returned (v, None), st') ->
     exists r s',
       srv_InsertMany (ctx d) (collection c) new (server st) = (Some r, None, s') /\
       v = GoSlice (InsertedIDs r) /\ st' = set_server s' st) /\
  (forall filter st', DeleteOne c filter st = (Returned None, st') ->
     exists r s',
       srv_DeleteOne (ctx d) (collection c) filter (server st) = (r, None, s') /\
       st' = set_server s' st) /\
  (forall filter st', DeleteMany c filter st = (Returned None, st') ->
     exists r s',
       srv_DeleteMany (ctx d) (collection c) filter (server st) = (r, None, s') /\
       st' = set_server s' st).
Proof.
  intros Hd. repeat apply conj.
  - intros st' H. rewrite (Drop_run _ _ _ Hd) in H.
    destruct (srv_Drop (ctx d) (collection c) (server st)) as [err s'].
    injection H as -> <-. eauto.
  - intros filter res res' st' H. rewrite (FindOne_run _ _ _ _ _ Hd) in H.
    destruct (srv_FindOne (ctx d) (collection c) filter (server st)) as [[e r] s'].
    unfold SingleResult_Decode in H. cbn [sr_err sr_rdr] in H.
    destruct e as [e|]; [discriminate|]. destruct r as [r|]; [|discriminate].
    injection H as H <-. exists r, s'. auto.
  - intros filter update m k st' H. rewrite (UpdateOne_run _ _ _ _ _ Hd) in H.
    destruct (srv_UpdateOne (ctx d) (collection c) filter update (server st))
      as [[[r|] [e|]] s']; try discriminate.
    injection H as <- <- <-. eauto 8.
  - intros filter update m k st' H. rewrite (UpdateMany_run _ _ _ _ _ Hd) in H.
    destruct (srv_UpdateMany (ctx d) (collection c) filter update (server st))
      as [[[r|] [e|]] s']; try discriminate.
    injection H as <- <- <-. eauto 8.
  - intros new v st' H. rewrite (InsertOne_run _ _ _ _ Hd) in H.
    destruct (srv_InsertOne (ctx d) (collection c) new (server st))
      as [[[r|] [e|]] s']; try discriminate.
    injection H as <- <-. eauto 8.
  - intros new v st' H. rewrite (InsertMany_run _ _ _ _ Hd) in H.
    destruct (srv_InsertMany (ctx d) (collection c) new (server st))
      as [[[r|] [e|]] s']; try discriminate.
    injection H as <- <-. eauto 8.
  - intros filter st' H. rewrite (DeleteOne_run _ _ _ _ Hd) in H.
    destruct (srv_DeleteOne (ctx d) (collection c) filter (server st)) as [[r err] s'].
    injection H as -> <-. eauto.
  - intros filter st' H. rewrite (DeleteMany_run _ _ _ _ Hd) in H.
    destruct (srv_DeleteMany (ctx d) (collection c) filter (server st)) as [[r err] s'].
    injection H as -> <-. eauto.
Qed.
End Inversion.

(** ** The further properties at concrete inputs *)

(** X2 at a concrete input: a handle whose parent address holds nothing. *)
Lemma dangling_handle_panics_witness :
  Drop (@Build_Collection Mem.driver 3 Mem.users) Mem.st0 = (Panicked, Mem.st0).
Proof.
  apply (proj1 (dangling_handle_panics (D := Mem.driver)
                  (@Build_Collection Mem.driver 3 Mem.users) Mem.st0 eq_refl)).
Defined.

(** X5 at a concrete input: the connection is lost after one of the two
    matching documents. *)
Lemma FindMany_appends_prefix_witness :
  exists k, (k <= 1)%nat /\
    [BsonD [("_id", ObjectID 1); ("name", GoString "a")]]
    = [] ++ (decoded (D := Mem.driver) <$> take k [Mem.named 1 "a"]).
Proof.
  apply (FindMany_appends_prefix (D := Mem.driver) Mem.coll_users
           (Mem.parent Mem.Background) (Mem.name_is "a") []
           (Mem.st_of Mem.Background Mem.srv_cut)
           {| fr_docs := [Mem.named 1 "a"];
              fr_terminal := Some (CommandError "connection reset") |}
           None Mem.srv_cut
           [BsonD [("_id", ObjectID 1); ("name", GoString "a")]] None
           (snd (FindMany Mem.coll_users (Mem.name_is "a") []
                   (Mem.st_of Mem.Background Mem.srv_cut)))).
  - reflexivity.
  - reflexivity.
  - vm_compute. reflexivity.
Defined.


(** X7 at the same input: the error returned is the decoder's. *)
Lemma FindMany_error_origin_witness :
  (exists pre r rest,
     [Mem.named 1 "a";
      {| Mem.id := ObjectID 2; Mem.body := Mem.name_is "a"; Mem.wellformed := false |}]
       = pre ++ r :: rest /\
     Forall (decodes (D := Mem.driver)) pre /\
     snd (bson_Unmarshal (Driver := Mem.driver) r reflect_New_arrType)
       = Some (DecodeError "invalid document length") /\
     [BsonD [("_id", ObjectID 1); ("name", GoString "a")]]
       = [] ++ (decoded (D := Mem.driver) <$> pre)) \/
  (Forall (decodes (D := Mem.driver))
     [Mem.named 1 "a";
      {| Mem.id := ObjectID 2; Mem.body := Mem.name_is "a"; Mem.wellformed := false |}] /\
   (None : error) <> None /\
   (None : error) = Some (DecodeError "invalid document length") /\
   [BsonD [("_id", ObjectID 1); ("name", GoString "a")]]
     = [] ++ (decoded (D := Mem.driver) <$>
               [Mem.named 1 "a";
                {| Mem.id := ObjectID 2; Mem.body := Mem.name_is "a";
                   Mem.wellformed := false |}])).
Proof.
  apply (FindMany_error_origin (D := Mem.driver) Mem.coll_users
           (Mem.parent Mem.Background) (Mem.name_is "a") []
           (Mem.st_of Mem.Background Mem.srv_bad)
           {| fr_docs := [Mem.named 1 "a";
                          {| Mem.id := ObjectID 2; Mem.body := Mem.name_is "a";
                             Mem.wellformed := false |}];
              fr_terminal := None |}
           None Mem.srv_bad
           [BsonD [("_id", ObjectID 1); ("name", GoString "a")]]
           (DecodeError "invalid document length")
           (snd (FindMany Mem.coll_users (Mem.name_is "a") []
                   (Mem.st_of Mem.Background Mem.srv_bad)))).
  - reflexivity.
  - reflexivity.
  - vm_compute. reflexivity.
Defined.

(** X8 at a concrete input: one document inserted. *)
Lemma nil_error_means_driver_success_witness :
  exists r s',
    srv_InsertOne (Driver := Mem.driver) Mem.Background Mem.users
      (BsonD (Mem.name_is "c")) Mem.srv0 = (Some r, None, s') /\
    ObjectID 4 = InsertedID r /\
    snd (InsertOne Mem.coll_users (BsonD (Mem.name_is "c")) Mem.st0)
      = set_server (D := Mem.driver) s' Mem.st0.
Proof.
  apply (proj1 (proj2 (proj2 (proj2 (proj2
           (nil_error_means_driver_success (D := Mem.driver) Mem.coll_users
              (Mem.parent Mem.Background) Mem.st0 eq_refl)))))
         (BsonD (Mem.name_is "c")) (ObjectID 4)
         (snd (InsertOne Mem.coll_users (BsonD (Mem.name_is "c")) Mem.st0))).
  vm_compute. reflexivity.
Defined.

(** X9 at a concrete input: [Drop] under a cancelled context. *)
Lemma driver_error_forwarded_witness :
  Drop Mem.coll_users (Mem.st_of Mem.Canceled Mem.srv0)
  = (Returned (Some Mem.canceled), Mem.st_of Mem.Canceled Mem.srv0).
Proof.
  apply (proj1 (driver_error_forwarded (D := Mem.driver) Mem.coll_users
                  (Mem.parent Mem.Canceled) (Mem.st_of Mem.Canceled Mem.srv0)
                  Mem.canceled eq_refl) Mem.srv0).
  reflexivity.
Defined.


(** X11 at a concrete input: a nil return with both documents appended. *)
Lemma FindMany_nil_inv_witness :
  Forall (decodes (D := Mem.driver)) [Mem.named 1 "a"; Mem.named 2 "a"] /\
  [BsonD [("_id", ObjectID 1); ("name", GoString "a")];
   BsonD [("_id", ObjectID 2); ("name", GoString "a")]]
  = [] ++ (decoded (D := Mem.driver) <$> [Mem.named 1 "a"; Mem.named 2 "a"]).
Proof.
  apply (FindMany_nil_inv (D := Mem.driver) Mem.coll_users
           (Mem.parent Mem.Background) (Mem.name_is "a") [] Mem.st0
           {| fr_docs := [Mem.named 1 "a"; Mem.named 2 "a"]; fr_terminal := None |}
           None Mem.srv0
           [BsonD [("_id", ObjectID 1); ("name", GoString "a")];
            BsonD [("_id", ObjectID 2); ("name", GoString "a")]]
           (snd (FindMany Mem.coll_users (Mem.name_is "a") [] Mem.st0))).
  - reflexivity.
  - reflexivity.
  - vm_compute. reflexivity.
Defined.
